(** * eve-rover: the browser-side session controller of [script.js]

    The script is a set of event handlers over four global variables
    ([roverIP], [lastCommand], [failCount], [currentMode]), the page,
    [localStorage] and the rover's HTTP API.  Every remote call is an
    [await fetch(...)]: the handler runs up to the call, the request
    leaves, and the rest of the handler runs when the response (or the
    failure) comes back.  The embedding keeps that shape: a handler is
    a function on the state that runs to its first [await]; what is
    left of it is parked with the request in flight and run by
    [deliver] when the environment answers.  Between two events any
    other event may come, as in the browser's event loop.

    What is taken for granted: the page has the elements the script
    looks up; strings are sequences of code units below 256; a JSON
    number is a rational; [Object.prototype] has the properties the
    language gives it and no other.  What is left out: the console, the timers
    that undo a highlight or the flash after 200 and 300 ms, and the
    3000 ms after which a [fetch] is given up (a time-out is a [fetch]
    that rejects). *)

From Stdlib Require Import String Ascii QArith Lqa List Bool Lia.
From stdpp Require Import gmap strings list.

Local Open Scope string_scope.
Local Open Scope list_scope.

(** ** JavaScript values and strings *)

Module Js.

(** The JSON values a telemetry field can hold.  A number is kept as
    a rational: every finite double is one, and the script only
    compares numbers with the constants 0, 15 and 35, which is
    exact.  [JUndefined] is a property that is not there.  [JObject]
    is an object or an array, with the string its conversion to a
    string gives, and [None] when that conversion throws: the one of
    an object whose own [toString] is not callable (and whose
    [valueOf] gives no primitive), [{"toString": 0}] for one, or of an
    array that holds such an object. *)
Inductive jsval :=
| JUndefined
| JNull
| JBool (b : bool)
| JNum (q : Q)
| JStr (s : string)
| JObject (str : option string).

(** Whether [ToString] of the value returns, in a template literal or
    in an assignment to [textContent]. *)
Definition stringifies (v : jsval) : bool :=
  match v with
  | JObject None => false
  | _ => true
  end.

(** What reading [o[key]] gives: the value of an own property, what
    the prototype has under that name, or [undefined]. *)
Inductive property :=
| Own (value : string)
| Inherited (key : string)
| Missing.

(** An object written as a literal with string values: its own
    properties, and the names it inherits from its prototype. *)
Record object := { own : gmap string string; inherited : list string }.

(** The names [Object.prototype] has. *)
Definition objectPrototype : list string :=
  ["constructor"; "hasOwnProperty"; "isPrototypeOf"; "propertyIsEnumerable";
   "toLocaleString"; "toString"; "valueOf"; "__proto__";
   "__defineGetter__"; "__defineSetter__"; "__lookupGetter__"; "__lookupSetter__"].

(** [o[key]] *)
Definition getProperty (o : object) (key : string) : property :=
  match own o !! key with
  | Some value => Own value
  | None => if existsb (String.eqb key) (inherited o) then Inherited key else Missing
  end.

(** [x < y] on numbers. *)
Definition ltb (x y : Q) : bool :=
  match (x ?= y)%Q with Lt => true | _ => false end.

(** Truthiness of a string: only the empty one is falsy. *)
Definition truthy (s : string) : bool :=
  match s with EmptyString => false | String _ _ => true end.

(** White space and line terminators of [String.prototype.trim],
    as far as they are code units below 256: TAB, LF, VT, FF, CR,
    SP and NBSP. *)
Definition is_space (c : ascii) : bool :=
  let n := nat_of_ascii c in
  ((9 <=? n) && (n <=? 13) || (n =? 32) || (n =? 160))%nat.

Fixpoint trimStart (s : string) : string :=
  match s with
  | EmptyString => EmptyString
  | String c s' => if is_space c then trimStart s' else s
  end.

(** Drops the trailing white space: a character stays when it is not
    white space or when something stays after it. *)
Fixpoint trimEnd (s : string) : string :=
  match s with
  | EmptyString => EmptyString
  | String c s' =>
      match trimEnd s' with
      | EmptyString => if is_space c then EmptyString else String c EmptyString
      | rest => String c rest
      end
  end.

Definition trim (s : string) : string := trimEnd (trimStart s).

(** [toLowerCase] on the letters A to Z; key names are ASCII. *)
Definition lower (c : ascii) : ascii :=
  let n := nat_of_ascii c in
  if ((65 <=? n) && (n <=? 90))%nat then ascii_of_nat (n + 32) else c.

Fixpoint toLowerCase (s : string) : string :=
  match s with
  | EmptyString => EmptyString
  | String c s' => String (lower c) (toLowerCase s')
  end.

End Js.
Import Js.

(** ** The state the handlers work on *)

(** What an element shows.  The template literals of the script are
    kept as constructors over the value they interpolate. *)
Inductive text :=
| Lit (s : string)            (* a string, as it is *)
| Shown (v : jsval)           (* el.textContent = v *)
| Html (p : property)         (* el.innerHTML = o[key] *)
| Volts (b : Q)               (* `${b.toFixed(2)} V` *)
| SignalDbm (v : jsval)       (* `Signal: ${v} dBm` *)
| Cm (d : Q).                 (* `${d} cm` *)

(** The four endpoints of the rover. *)
Inductive endpoint :=
| Mode (mode : string)        (* /mode?mode=... *)
| Action (go : string)        (* /action?go=... *)
| Speed (val : string)        (* /speed?val=... *)
| Status.                     (* /status *)

(** A GET request to [http://<host><endpoint>]. *)
Record request := GET { host : string; target : endpoint }.

(** The body of a [/status] answer, after [response.json()].  The
    fields [battery], [rssi] and [command] are any JSON value; the
    distance is a number, [null] or missing, the mode a string or
    missing, as the rover's interface has them. *)
Inductive distance_field :=
| DistAbsent
| DistNull
| DistNum (d : Q).

Record status_body := {
  battery : jsval;
  rssi : jsval;
  command : jsval;
  distance : distance_field;
  mode : option string
}.

(** How a [fetch] ends: the promise rejects (network failure, time
    out, bad URL), or it resolves to a response with its [ok] flag
    and, for [/status], what [response.json()] gives ([None] when the
    body does not parse). *)
Inductive outcome :=
| Rejected
| Resolved (ok : bool) (body : option status_body).

(** What is left of an async function after its [await fetch]. *)
Inductive fetch_frame :=
| InSwitchMode (mode : string)
| InMove
| InUpdateSpeed
| InFetchStatus.

(** What is left of [emergencyStop] after each of its two awaits. *)
Inductive segment :=
| EmergencyMove               (* await move('stop') and what follows *)
| EmergencyFlash.             (* the visual feedback *)

Record globals := {
  roverIP : string;
  lastCommand : string;
  failCount : nat;
  currentMode : string
}.

(** The page: text and class by element id, styles by element id and
    property, the value of the address field, and which of the
    [.mode-btn] and [.control-btn] buttons carry the class [active]
    ([Some m]: those whose [data-mode] is [m], respectively whose
    label includes [m]). *)
Record page := {
  textContent : gmap string text;
  className : gmap string string;
  style : gmap (string * string) string;
  ipInput : string;
  modeBtns : option string;
  controlBtns : option string
}.

(** The world around the script: [localStorage], the alerts shown,
    the requests sent so far (oldest first) and the ones in flight,
    each with the function that awaits it and the callers that await
    that function. *)
Record world := {
  localStorage : gmap string string;
  alerts : list string;
  requests : list request;
  pending : gmap nat (fetch_frame * list segment)
}.

Record state := { vars : globals; doc : page; env : world }.

(** ** Assignments *)

Module Upd.

Definition with_vars (f : globals -> globals) (s : state) : state :=
  {| vars := f (vars s); doc := doc s; env := env s |}.
Definition with_doc (f : page -> page) (s : state) : state :=
  {| vars := vars s; doc := f (doc s); env := env s |}.
Definition with_env (f : world -> world) (s : state) : state :=
  {| vars := vars s; doc := doc s; env := f (env s) |}.

Definition setRoverIP (v : string) : state -> state :=
  with_vars (fun g => {| roverIP := v; lastCommand := lastCommand g;
                         failCount := failCount g; currentMode := currentMode g |}).
Definition setLastCommand (v : string) : state -> state :=
  with_vars (fun g => {| roverIP := roverIP g; lastCommand := v;
                         failCount := failCount g; currentMode := currentMode g |}).
Definition setFailCount (v : nat) : state -> state :=
  with_vars (fun g => {| roverIP := roverIP g; lastCommand := lastCommand g;
                         failCount := v; currentMode := currentMode g |}).
Definition setCurrentMode (v : string) : state -> state :=
  with_vars (fun g => {| roverIP := roverIP g; lastCommand := lastCommand g;
                         failCount := failCount g; currentMode := v |}).

(** [el.textContent = t] (and [el.innerHTML = t]) *)
Definition setText (el : string) (t : text) : state -> state :=
  with_doc (fun p => {| textContent := <[el := t]> (textContent p);
                        className := className p; style := style p;
                        ipInput := ipInput p; modeBtns := modeBtns p;
                        controlBtns := controlBtns p |}).
(** [el.className = c] *)
Definition setClass (el c : string) : state -> state :=
  with_doc (fun p => {| textContent := textContent p;
                        className := <[el := c]> (className p); style := style p;
                        ipInput := ipInput p; modeBtns := modeBtns p;
                        controlBtns := controlBtns p |}).
(** [el.style.prop = v] *)
Definition setStyle (el prop v : string) : state -> state :=
  with_doc (fun p => {| textContent := textContent p; className := className p;
                        style := <[(el, prop) := v]> (style p);
                        ipInput := ipInput p; modeBtns := modeBtns p;
                        controlBtns := controlBtns p |}).
(** [ipInput.value = v] *)
Definition setIpInput (v : string) : state -> state :=
  with_doc (fun p => {| textContent := textContent p; className := className p;
                        style := style p; ipInput := v; modeBtns := modeBtns p;
                        controlBtns := controlBtns p |}).
Definition setModeBtns (m : string) : state -> state :=
  with_doc (fun p => {| textContent := textContent p; className := className p;
                        style := style p; ipInput := ipInput p; modeBtns := Some m;
                        controlBtns := controlBtns p |}).
Definition setControlBtns (d : string) : state -> state :=
  with_doc (fun p => {| textContent := textContent p; className := className p;
                        style := style p; ipInput := ipInput p; modeBtns := modeBtns p;
                        controlBtns := Some d |}).

(** [localStorage.setItem(k, v)] *)
Definition setItem (k v : string) : state -> state :=
  with_env (fun w => {| localStorage := <[k := v]> (localStorage w);
                        alerts := alerts w; requests := requests w;
                        pending := pending w |}).
(** [alert(msg)] *)
Definition alert (msg : string) : state -> state :=
  with_env (fun w => {| localStorage := localStorage w;
                        alerts := alerts w ++ [msg]; requests := requests w;
                        pending := pending w |}).
Definition setPending (p : gmap nat (fetch_frame * list segment)) : state -> state :=
  with_env (fun w => {| localStorage := localStorage w; alerts := alerts w;
                        requests := requests w; pending := p |}).
(** The request leaves and [k] waits for its answer; the request's
    number is its place in [requests]. *)
Definition send (r : request) (k : fetch_frame) : state -> state :=
  with_env (fun w => {| localStorage := localStorage w; alerts := alerts w;
                        requests := requests w ++ [r];
                        pending := <[length (requests w) := (k, [])]> (pending w) |}).

End Upd.
Import Upd.

(** ** The script *)

(** The elements the script looks up by id, and [document.body]. *)
Definition statusEl := "connection-status".
Definition signalEl := "signal-strength".
Definition batteryEl := "battery".
Definition actionEl := "current-action".
Definition activeModeEl := "active-mode".
Definition modeDescEl := "mode-description".
Definition manualControls := "manual-controls".
Definition speedControl := "speed-control".
Definition autoDisplay := "auto-display".
Definition keyboardHelp := "keyboard-help".
Definition distanceValue := "distance-value".
Definition distanceInfo := "distance-info".
Definition distanceRow := "distance-row".
Definition speedDisplay := "speed-display".
Definition documentBody := "body".

(** The object [modeDescriptions]: its two own properties, over
    [Object.prototype]. *)
Definition modeDescriptions : object :=
  {| own :=
       <["manual" := "<strong>Manual Mode:</strong> Control the rover with buttons or keyboard"]>
       (<["autonomous" := "<strong>Autonomous Mode:</strong> Rover avoids obstacles automatically using ultrasonic sensor"]> ∅);
     inherited := objectPrototype |}.

(** An async function runs to its first pending [await] and returns
    there: [Some id] when it now waits for request [id], [None] when it
    ran to its end. *)
Definition async : Type := state * option nat.

(** [await fetch(`http://${roverIP}${e}`, ...)] with [k] the rest of
    the calling function. *)
Definition fetch (e : endpoint) (k : fetch_frame) (s : state) : async :=
  (send (GET (roverIP (vars s)) e) k s, Some (length (requests (env s)))).

Definition updateConnectionStatus (connected : bool) (s : state) : state :=
  if connected then
    let s := setText statusEl (Lit "✅ Connected") s in
    let s := setClass statusEl "status connected" s in
    setFailCount 0 s
  else
    let s := setFailCount (S (failCount (vars s))) s in
    if (3 <? failCount (vars s))%nat then
      let s := setText statusEl (Lit "⚠️ Disconnected") s in
      let s := setClass statusEl "status disconnected" s in
      setText signalEl (Lit "Signal: --") s
    else s.

Definition updateModeUI (mode : string) (s : state) : state :=
  let s := setModeBtns mode s in
  if String.eqb mode "manual" then
    let s := setStyle manualControls "display" "grid" s in
    let s := setStyle speedControl "display" "block" s in
    let s := setStyle keyboardHelp "display" "block" s in
    let s := setStyle autoDisplay "display" "none" s in
    setStyle distanceRow "display" "none" s
  else
    let s := setStyle manualControls "display" "none" s in
    let s := setStyle speedControl "display" "none" s in
    let s := setStyle keyboardHelp "display" "none" s in
    let s := setStyle autoDisplay "display" "block" s in
    setStyle distanceRow "display" "flex" s.

(** The 200 ms timer that takes the highlight away again is left out. *)
Definition highlightButton (direction : string) (s : state) : state :=
  setControlBtns direction s.

Definition move (direction : string) (s : state) : async :=
  if negb (String.eqb (currentMode (vars s)) "manual") then (s, None)
  else
    let direction :=
      if String.eqb (lastCommand (vars s)) direction && negb (String.eqb direction "stop")
      then "stop" else direction in
    let s := setLastCommand direction s in
    let s := setText actionEl (Lit direction) s in
    let s := highlightButton direction s in
    fetch (Action direction) InMove s.

Definition switchMode (mode : string) (s : state) : async :=
  let s := setCurrentMode mode s in
  let s := setItem "controlMode" mode s in
  let s := updateModeUI mode s in
  let s := setText modeDescEl (Html (getProperty modeDescriptions mode)) s in
  let s := setText activeModeEl (Lit mode) s in
  fetch (Mode mode) (InSwitchMode mode) s.

Definition updateSpeed (value : string) (s : state) : async :=
  let s := setText speedDisplay (Lit value) s in
  fetch (Speed value) InUpdateSpeed s.

Definition fetchStatus (s : state) : async :=
  fetch Status InFetchStatus s.

Definition connectRover (s : state) : state :=
  let s := setRoverIP (trim (ipInput (doc s))) s in
  if negb (truthy (roverIP (vars s))) then
    alert "Please enter a valid IP address!" s
  else
    let s := setItem "roverIP" (roverIP (vars s)) s in
    let s := setText statusEl (Lit "🔄 Connecting...") s in
    let s := setClass statusEl "status" s in
    fst (fetchStatus s).

(** The colour of the distance, for a positive distance in autonomous
    mode. *)
Definition distanceColor (d : Q) : string :=
  if ltb d 15 then "#f56565"
  else if ltb d 35 then "#f6ad55"
  else "#48bb78".

(** "Update distance if available": the text for a distance that is
    there, and its colour in autonomous mode. *)
Definition showDistance (data : status_body) (s : state) : state :=
  match distance data with
  | DistNum d =>
      let dist := if ltb 0 d then Cm d else Lit "-- cm" in
      let s := setText distanceValue dist s in
      let s := setText distanceInfo dist s in
      if String.eqb (currentMode (vars s)) "autonomous" && ltb 0 d
      then setStyle distanceValue "color" (distanceColor d) s
      else s
  | DistAbsent | DistNull => s
  end.

(** "Sync mode if different".  [switchMode(data.mode)] is not awaited:
    its request leaves and [fetchStatus] goes on. *)
Definition syncMode (data : status_body) (s : state) : state :=
  match mode data with
  | Some m =>
      if truthy m && negb (String.eqb m (currentMode (vars s)))
      then fst (switchMode m s) else s
  | None => s
  end.

(** How a block inside a [try] ends: at its end, or by an exception
    thrown in the state reached so far. *)
Inductive completion :=
| Normal (s : state)
| Throw (s : state).

(** [fetchStatus] from [batteryEl.textContent = ...] on, once
    [data.battery.toFixed(2)] has gone through with the number [b].
    The signal strength goes into a template literal and the command
    into [textContent]: both are converted to a string, which throws
    for an object that has no such conversion, after what was written
    before. *)
Definition showStatus (data : status_body) (b : Q) (s : state) : completion :=
  let s := setText batteryEl (Volts b) s in
  if stringifies (rssi data) then
    let s := setText signalEl (SignalDbm (rssi data)) s in
    if stringifies (command data) then
      let s := setText actionEl (Shown (command data)) s in
      let s := showDistance data s in
      let s := syncMode data s in
      Normal (updateConnectionStatus true s)
    else Throw s                                        (* TypeError *)
  else Throw s.                                         (* TypeError *)

(** [try { ... } catch (error) { handler }] around a block that
    completes with [c]. *)
Definition catch (c : completion) (handler : state -> state) : state :=
  match c with
  | Normal s => s
  | Throw s => handler s
  end.

(** The rest of each async function once its [fetch] has ended.  In
    [fetchStatus] the two awaits ([fetch], [response.json()]) are taken
    together: nothing is read or written between them.  A body that is
    JSON but no object ([null], a number, ...) fails at
    [data.battery] like an object without that field. *)
Definition on_response (k : fetch_frame) (o : outcome) (s : state) : state :=
  match k with
  | InSwitchMode mode =>
      match o with
      | Resolved _ _ =>
          if String.eqb mode "manual" then fst (move "stop" s) else s
      | Rejected => s                                   (* catch: logged *)
      end
  | InMove =>
      match o with
      | Resolved ok _ => if ok then updateConnectionStatus true s else s
      | Rejected => updateConnectionStatus false s      (* catch *)
      end
  | InUpdateSpeed => s
  | InFetchStatus =>
      match o with
      | Resolved ok body =>
          if ok then
            match body with
            | Some data =>
                match battery data with
                | JNum b => catch (showStatus data b s) (updateConnectionStatus false)
                | _ => updateConnectionStatus false s   (* toFixed: TypeError, catch *)
                end
            | None => updateConnectionStatus false s    (* json() rejects, catch *)
            end
          else s
      | Rejected => updateConnectionStatus false s      (* catch *)
      end
  end.

(** The callers [ks] now await request [id] too. *)
Definition park (id : nat) (ks : list segment) (s : state) : state :=
  setPending (alter (fun fr : fetch_frame * list segment => (fst fr, snd fr ++ ks))
                    id (pending (env s))) s.

(** The 300 ms timer that restores the background is left out. *)
Definition run_segment (k : segment) (s : state) : async :=
  match k with
  | EmergencyMove => move "stop" s
  | EmergencyFlash => (setStyle documentBody "background" "#dc2626" s, None)
  end.

(** Runs the awaiting callers, innermost first, until one of them
    awaits a request again. *)
Fixpoint resume (ks : list segment) (s : state) : state :=
  match ks with
  | [] => s
  | k :: ks' =>
      match run_segment k s with
      | (s', Some id) => park id ks' s'
      | (s', None) => resume ks' s'
      end
  end.

(** [await r] followed by the segments [ks]. *)
Definition await (r : async) (ks : list segment) : state :=
  match r with
  | (s, Some id) => park id ks s
  | (s, None) => resume ks s
  end.

Definition emergencyStop (s : state) : state :=
  await (switchMode "manual" s) [EmergencyMove; EmergencyFlash].

(** The answer [o] to request [id] arrives: the function that awaits
    it runs to its end, then its callers. *)
Definition deliver (id : nat) (o : outcome) (s : state) : state :=
  match pending (env s) !! id with
  | Some (k, ks) =>
      let s := setPending (delete id (pending (env s))) s in
      resume ks (on_response k o s)
  | None => s
  end.

(** The [DOMContentLoaded] handler; [setInterval(fetchStatus, 1000)]
    is the source of the [Tick] events below. *)
Definition onLoad (s : state) : state :=
  let s :=
    match localStorage (env s) !! "roverIP" with
    | Some savedIP =>
        if truthy savedIP then setIpInput savedIP (setRoverIP savedIP s) else s
    | None => s
    end in
  match localStorage (env s) !! "controlMode" with
  | Some savedMode =>
      if truthy savedMode && String.eqb savedMode "autonomous"
      then fst (switchMode savedMode s) else s
  | None => s
  end.

(** The [keydown] listener of [setupKeyboardControls]. *)
Definition keydown (key : string) (ctrlKey : bool) (s : state) : state :=
  if String.eqb key "Escape" then emergencyStop s
  else if String.eqb (toLowerCase key) "m" then fst (switchMode "manual" s)
  else if String.eqb (toLowerCase key) "a" && ctrlKey
       then fst (switchMode "autonomous" s)
  else if negb (String.eqb (currentMode (vars s)) "manual") then s
  else
    let k := toLowerCase key in
    if String.eqb k "w" || String.eqb k "arrowup" then fst (move "forward" s)
    else if String.eqb k "s" || String.eqb k "arrowdown" then fst (move "backward" s)
    else if String.eqb k "a" || String.eqb k "arrowleft" then fst (move "left" s)
    else if String.eqb k "d" || String.eqb k "arrowright" then fst (move "right" s)
    else if String.eqb k " " then fst (move "stop" s)
    else s.

(** ** The session as a transition system *)

(** What can happen to the page: it loads, the poll timer fires, the
    operator types an address, the page calls one of the exported
    functions, a key goes down, a request in flight ends. *)
Inductive event :=
| Load
| Tick
| Typed (address : string)
| Connect
| SwitchMode (mode : string)
| Move (direction : string)
| UpdateSpeed (value : string)
| Keydown (key : string) (ctrlKey : bool)
| Response (id : nat) (o : outcome).

Definition step (s : state) (e : event) : state :=
  match e with
  | Load => onLoad s
  | Tick => fst (fetchStatus s)
  | Typed address => setIpInput address s
  | Connect => connectRover s
  | SwitchMode mode => fst (switchMode mode s)
  | Move direction => fst (move direction s)
  | UpdateSpeed value => fst (updateSpeed value s)
  | Keydown key ctrlKey => keydown key ctrlKey s
  | Response id o => deliver id o s
  end.

Definition run (es : list event) (s : state) : state := fold_left step es s.

(** The script's initial values, over the page as the HTML has it and
    what [localStorage] holds. *)
Definition initial (p : page) (store : gmap string string) : state :=
  {| vars := {| roverIP := "192.168.1.100"; lastCommand := "stop";
                failCount := 0; currentMode := "manual" |};
     doc := p;
     env := {| localStorage := store; alerts := []; requests := []; pending := ∅ |} |}.

Definition blank : page :=
  {| textContent := ∅; className := ∅; style := ∅; ipInput := "";
     modeBtns := None; controlBtns := None |}.

(** ** What the statements observe *)

(** The connectivity the page shows: the failure count, and the text
    and class of the status indicator. *)
Definition connectivity (s : state) : nat * option text * option string :=
  (failCount (vars s), textContent (doc s) !! statusEl, className (doc s) !! statusEl).

Definition signalShown (s : state) : option text := textContent (doc s) !! signalEl.

(** A request that fails: the poll is sent and its [fetch] rejects. *)
Definition failedPoll (s : state) : state :=
  deliver (length (requests (env s))) Rejected (fst (fetchStatus s)).

(** A body whose signal strength and command can be put on the page:
    both have a conversion to a string. *)
Definition displayable (data : status_body) : bool :=
  stringifies (rssi data) && stringifies (command data).

(** The answers the script counts as a success: a response with [ok]
    set to a movement command, or to a poll whose body parses, has a
    number as [battery] and is displayable. *)
Definition counted_success (k : fetch_frame) (o : outcome) : bool :=
  match k, o with
  | InMove, Resolved true _ => true
  | InFetchStatus, Resolved true (Some data) =>
      match battery data with JNum _ => displayable data | _ => false end
  | _, _ => false
  end.

(** The answers the script counts as a failure: a [fetch] that
    rejects, for a movement command or a poll; for a poll also a 2xx
    response whose body does not parse, has no number as [battery],
    or is not displayable. *)
Definition counted_failure (k : fetch_frame) (o : outcome) : bool :=
  match k, o with
  | (InMove | InFetchStatus), Rejected => true
  | InFetchStatus, Resolved true None => true
  | InFetchStatus, Resolved true (Some data) =>
      match battery data with JNum _ => negb (displayable data) | _ => true end
  | _, _ => false
  end.

(** What an event is to a run of failures: one more of them; nothing;
    or its end, which a counted success is, and a connect to an
    address, which rewrites the indicator. *)
Inductive verdict := Failure | Neutral | Break.

Definition verdictOf (s : state) (e : event) : verdict :=
  match e with
  | Connect => if truthy (trim (ipInput (doc s))) then Break else Neutral
  | Response id o =>
      match pending (env s) !! id with
      | Some (k, _) =>
          if counted_success k o then Break
          else if counted_failure k o then Failure else Neutral
      | None => Neutral
      end
  | _ => Neutral
  end.

(** The number of failures in a run of events from [s], when nothing
    in it ends the run. *)
Fixpoint failuresIn (s : state) (es : list event) : option nat :=
  match es with
  | [] => Some 0
  | e :: es =>
      match verdictOf s e, failuresIn (step s e) es with
      | Failure, Some n => Some (S n)
      | Neutral, Some n => Some n
      | _, _ => None
      end
  end.


(** The colour of the distance as the page has it. *)
Definition distanceColorShown (s : state) : option string :=
  style (doc s) !! (distanceValue, "color").

(** The body [data] with another distance. *)
Definition withDistance (df : distance_field) (data : status_body) : status_body :=
  {| battery := battery data; rssi := rssi data; command := command data;
     distance := df; mode := mode data |}.

(** The colour after the poll [id] has gone through with [data]. *)
Definition colorAfter (id : nat) (data : status_body) (s : state) : option string :=
  distanceColorShown (deliver id (Resolved true (Some data)) s).

(** The telemetry the page shows besides the signal strength:
    battery, current action, the two distance texts and the colour. *)
Definition telemetryShown (s : state)
  : option text * option text * option text * option text * option string :=
  (textContent (doc s) !! batteryEl, textContent (doc s) !! actionEl,
   textContent (doc s) !! distanceValue, textContent (doc s) !! distanceInfo,
   distanceColorShown s).

(** The answers to a poll that end in the [catch] of [fetchStatus]
    before anything is written: the [fetch] rejects, or the response
    is 2xx and its body does not parse or has no number as
    [battery]. *)
Definition counts_as_failure (o : outcome) : bool :=
  match o with
  | Rejected => true
  | Resolved ok body =>
      ok && match body with
            | Some data => match battery data with JNum _ => false | _ => true end
            | None => true
            end
  end.

Definition knownMode (m : string) : bool :=
  String.eqb m "manual" || String.eqb m "autonomous".

(** The mode is one of the two the page knows. *)
Definition mode_ok (s : state) : Prop :=
  currentMode (vars s) = "manual" \/ currentMode (vars s) = "autonomous".

(** The events in which every mode that comes from outside is one of
    the two: the argument of [switchMode] when the page calls it, and
    the mode a [/status] body reports (an empty one is ignored). *)
Definition sane (e : event) : bool :=
  match e with
  | SwitchMode m => knownMode m
  | Response _ (Resolved _ (Some data)) =>
      match mode data with
      | Some m => knownMode m || negb (truthy m)
      | None => true
      end
  | _ => true
  end.

(** Nothing but white space. *)
Fixpoint blank_string (s : string) : bool :=
  match s with
  | EmptyString => true
  | String c s' => is_space c && blank_string s'
  end.

(** The direction of the last [/action] request in [l], and [d] when
    there is none. *)
Fixpoint lastGo (d : string) (l : list request) : string :=
  match l with
  | [] => d
  | r :: l' => lastGo (match target r with Action go => go | _ => d end) l'
  end.

Definition isAction (r : request) : bool :=
  match target r with Action _ => true | _ => false end.

(** From [s] to [s'] requests were only added, no [/action] among
    them, and the last command is the same. *)
Definition Quiet (s s' : state) : Prop :=
  exists l, requests (env s') = requests (env s) ++ l /\
            existsb isAction l = false /\
            lastCommand (vars s') = lastCommand (vars s).

(** From [s] to [s'] requests were only added, the last command
    follows the [/action] requests among them, and there is one only
    if the mode is manual in [s']. *)
Definition Commands (s s' : state) : Prop :=
  exists l, requests (env s') = requests (env s) ++ l /\
            lastCommand (vars s') = lastGo (lastCommand (vars s)) l /\
            (existsb isAction l = true -> currentMode (vars s') = "manual").

(** The requests sent from [s] to [s']. *)
Definition sentBetween (s s' : state) : list request :=
  skipn (length (requests (env s))) (requests (env s')).

(** [n] presses of the same direction: [d], stop, [d], stop, ... *)
Fixpoint presses (d : string) (n : nat) : list string :=
  match n with
  | 0 => []
  | S m => presses d m ++ [if Nat.even m then d else "stop"]
  end.

(** The first half of the start-up: the saved address, when there is
    a non-empty one, becomes the active address and fills the field. *)
Definition loadAddress (s : state) : state :=
  match localStorage (env s) !! "roverIP" with
  | Some savedIP =>
      if truthy savedIP then setIpInput savedIP (setRoverIP savedIP s) else s
  | None => s
  end.


(** The status indicator does not contradict the failure count: it
    shows the connection only with at most 3 failures counted, and the
    disconnection only with more. *)
Definition indicator_ok (s : state) : Prop :=
  (textContent (doc s) !! statusEl = Some (Lit "✅ Connected") ->
   failCount (vars s) <= 3) /\
  (textContent (doc s) !! statusEl = Some (Lit "⚠️ Disconnected") ->
   3 < failCount (vars s)).

(** What the page and the store show of the mode: the persisted mode,
    the mode buttons, the active-mode label, the description, and the
    [display] of the five panels (manual controls, speed control,
    keyboard help, autonomous display, distance row). *)
Definition modeShown (s : state)
  : option string * option string * option text * option text * list (option string) :=
  (localStorage (env s) !! "controlMode", modeBtns (doc s),
   textContent (doc s) !! activeModeEl, textContent (doc s) !! modeDescEl,
   [style (doc s) !! (manualControls, "display");
    style (doc s) !! (speedControl, "display");
    style (doc s) !! (keyboardHelp, "display");
    style (doc s) !! (autoDisplay, "display");
    style (doc s) !! (distanceRow, "display")]).

(** What they show for the mode [m]: as description what
    [modeDescriptions] has under [m], own or inherited; the manual
    panels for ["manual"], the autonomous ones for anything else. *)
Definition modeLayout (m : string)
  : option string * option string * option text * option text * list (option string) :=
  (Some m, Some m, Some (Lit m),
   Some (Html (getProperty modeDescriptions m)),
   if String.eqb m "manual"
   then [Some "grid"; Some "block"; Some "block"; Some "none"; Some "none"]
   else [Some "none"; Some "none"; Some "none"; Some "block"; Some "flex"]).

(** The page and the store agree with the mode. *)
Definition synced (s : state) : Prop :=
  modeShown s = modeLayout (currentMode (vars s)).

(** White space at the start, at the end. *)
Definition startsWithSpace (s : string) : bool :=
  match s with
  | EmptyString => false
  | String c _ => is_space c
  end.

Fixpoint endsWithSpace (s : string) : bool :=
  match s with
  | EmptyString => false
  | String c EmptyString => is_space c
  | String _ s' => endsWithSpace s'
  end.

(** ** Basic facts about the handlers *)

(** Reads a field through the assignments before it; the handlers
    themselves stay folded. *)
Ltac proj :=
  cbn [vars doc env requests pending localStorage alerts
       roverIP lastCommand failCount currentMode
       textContent className style ipInput modeBtns controlBtns
       with_vars with_doc with_env
       setRoverIP setLastCommand setFailCount setCurrentMode
       setText setClass setStyle setIpInput setModeBtns setControlBtns
       setItem alert setPending send highlightButton fetch fst snd] in *.

(** A request changes nothing but the world around the script. *)
Lemma fetch_vars e k s : vars (fst (fetch e k s)) = vars s.
Proof. reflexivity. Qed.

Lemma fetch_doc e k s : doc (fst (fetch e k s)) = doc s.
Proof. reflexivity. Qed.

Lemma fetch_requests e k s :
  requests (env (fst (fetch e k s))) = requests (env s) ++ [GET (roverIP (vars s)) e].
Proof. reflexivity. Qed.

Lemma fetch_pending e k s :
  pending (env (fst (fetch e k s))) !! length (requests (env s)) = Some (k, []).
Proof. cbn. apply lookup_insert_eq. Qed.

(** [move] in manual mode, written out: the direction sent is ["stop"]
    when the argument repeats the last command and is not ["stop"],
    and the argument otherwise. *)
Lemma move_manual d s :
  currentMode (vars s) = "manual" ->
  move d s =
    let eff := if String.eqb (lastCommand (vars s)) d && negb (String.eqb d "stop")
               then "stop" else d in
    fetch (Action eff) InMove
      (highlightButton eff (setText actionEl (Lit eff) (setLastCommand eff s))).
Proof. intros H. unfold move. rewrite H. reflexivity. Qed.

Lemma move_stop_manual s :
  currentMode (vars s) = "manual" ->
  move "stop" s =
    fetch (Action "stop") InMove
      (highlightButton "stop" (setText actionEl (Lit "stop") (setLastCommand "stop" s))).
Proof.
  intros H. rewrite (move_manual _ _ H). cbn zeta.
  rewrite String.eqb_refl, andb_false_r. reflexivity.
Qed.

Lemma move_currentMode d s :
  currentMode (vars (fst (move d s))) = currentMode (vars s).
Proof. unfold move. destruct (negb _); reflexivity. Qed.

Lemma move_failCount d s :
  failCount (vars (fst (move d s))) = failCount (vars s).
Proof. unfold move. destruct (negb _); reflexivity. Qed.

Lemma move_roverIP d s :
  roverIP (vars (fst (move d s))) = roverIP (vars s).
Proof. unfold move. destruct (negb _); reflexivity. Qed.

Lemma switchMode_currentMode m s :
  currentMode (vars (fst (switchMode m s))) = m.
Proof. unfold switchMode, updateModeUI. destruct (String.eqb m "manual"); reflexivity. Qed.

Lemma switchMode_requests m s :
  requests (env (fst (switchMode m s))) = requests (env s) ++ [GET (roverIP (vars s)) (Mode m)].
Proof. unfold switchMode, updateModeUI. destruct (String.eqb m "manual"); reflexivity. Qed.

Lemma switchMode_pending m s :
  pending (env (fst (switchMode m s))) !! length (requests (env s)) = Some (InSwitchMode m, []).
Proof.
  unfold switchMode, updateModeUI.
  destruct (String.eqb m "manual"); cbn; apply lookup_insert_eq.
Qed.

Lemma switchMode_suspends m s :
  snd (switchMode m s) = Some (length (requests (env s))).
Proof. unfold switchMode, updateModeUI. destruct (String.eqb m "manual"); reflexivity. Qed.

(** ** The claims *)

(** C6. While the mode is not manual, [move(d)] does nothing at all,
    for every direction [d]: it returns at once with the state as it
    was -- no request sent or left in flight, [lastCommand] and every
    other variable, the page and the store unchanged. *)
Theorem move_outside_manual_is_noop (d : string) (s : state) :
  currentMode (vars s) <> "manual" ->
  move d s = (s, None).
Proof.
  intros H. unfold move.
  destruct (String.eqb_spec (currentMode (vars s)) "manual") as [E | _].
  - contradiction.
  - reflexivity.
Qed.

(** In autonomous mode, [move("forward")]. *)
Lemma move_outside_manual_is_noop_witness :
  let s := fst (switchMode "autonomous" (initial blank ∅)) in
  currentMode (vars s) <> "manual" /\ move "forward" s = (s, None).
Proof.
  cbv zeta. split.
  - discriminate.
  - apply move_outside_manual_is_noop. discriminate.
Defined.

(** C2, as stated, fails when the last command is already [d]: after
    one [forward], two more calls of [move("forward")] send [stop] and
    then [forward], and leave [lastCommand] at ["forward"]. *)
Lemma move_twice_after_same_command :
  let s := run [Move "forward"] (initial blank ∅) in
  let s2 := fst (move "forward" (fst (move "forward" s))) in
  "forward" <> "stop" /\
  currentMode (vars s) = "manual" /\
  lastCommand (vars s2) = "forward" /\
  lastCommand (vars s2) <> "stop" /\
  requests (env s2) =
    [GET "192.168.1.100" (Action "forward");
     GET "192.168.1.100" (Action "stop");
     GET "192.168.1.100" (Action "forward")].
Proof. cbv zeta. repeat split; (discriminate || reflexivity). Qed.

(** C2, amended.  In manual mode, for a direction [d] other than
    ["stop"]: from a state [s] whose last command is not [d], two
    calls of [move(d)] in a row leave [lastCommand] at ["stop"] and
    send [go=d], then [go=stop].  In general, from any state [t] whose
    last command is [d], [move(d)] sends [go=stop].  In both cases
    [lastCommand] already holds the direction sent in the state the
    request is sent from, in which nothing has left yet. *)
Theorem move_toggle (d : string) (s t : state) :
  d <> "stop" ->
  currentMode (vars s) = "manual" -> lastCommand (vars s) <> d ->
  currentMode (vars t) = "manual" -> lastCommand (vars t) = d ->
  (let s2 := fst (move d (fst (move d s))) in
   lastCommand (vars s2) = "stop" /\
   requests (env s2) =
     requests (env s) ++ [GET (roverIP (vars s)) (Action d);
                          GET (roverIP (vars s)) (Action "stop")]) /\
  (exists t', move d t = fetch (Action "stop") InMove t' /\
              lastCommand (vars t') = "stop" /\ env t' = env t) /\
  (exists s', move d s = fetch (Action d) InMove s' /\
              lastCommand (vars s') = d /\ env s' = env s).
Proof.
  intros Hd Hs Hls Ht Hlt.
  assert (Efirst : String.eqb (lastCommand (vars s)) d && negb (String.eqb d "stop") = false).
  { apply andb_false_iff. left. now apply String.eqb_neq. }
  assert (Esame : String.eqb d d && negb (String.eqb d "stop") = true).
  { rewrite String.eqb_refl. apply String.eqb_neq in Hd. now rewrite Hd. }
  split; [| split].
  - cbv zeta. rewrite (move_manual d s Hs). cbv zeta. rewrite Efirst.
    rewrite move_manual by exact Hs.
    cbn [fetch fst vars lastCommand setLastCommand setText highlightButton
         setControlBtns with_vars with_doc with_env send].
    rewrite Esame. cbn. rewrite <- app_assoc. split; reflexivity.
  - rewrite (move_manual d t Ht). cbv zeta. rewrite Hlt, Esame.
    eexists. split; [reflexivity |]. split; reflexivity.
  - rewrite (move_manual d s Hs). cbv zeta. rewrite Efirst.
    eexists. split; [reflexivity |]. split; reflexivity.
Qed.

(** From the initial state, [move("left")] twice. *)
Lemma move_toggle_witness :
  let s := initial blank ∅ in
  let t := fst (move "left" s) in
  "left" <> "stop" /\
  lastCommand (vars (fst (move "left" (fst (move "left" s))))) = "stop" /\
  requests (env (fst (move "left" t))) =
    [GET "192.168.1.100" (Action "left"); GET "192.168.1.100" (Action "stop")].
Proof.
  cbv zeta.
  destruct (move_toggle "left" (initial blank ∅) (fst (move "left" (initial blank ∅))))
    as [[Hlast Hreq] _]; try reflexivity; try discriminate.
  split; [discriminate |]. split; [exact Hlast | exact Hreq].
Defined.

(** *** Answers to [/mode] requests *)

Lemma deliver_pending id o s k ks :
  pending (env s) !! id = Some (k, ks) ->
  deliver id o s =
    resume ks (on_response k o (setPending (delete id (pending (env s))) s)).
Proof. intros H. unfold deliver. rewrite H. reflexivity. Qed.

Lemma switchMode_roverIP m s :
  roverIP (vars (fst (switchMode m s))) = roverIP (vars s).
Proof. unfold switchMode, updateModeUI. destruct (String.eqb m "manual"); reflexivity. Qed.

(** The implicit stop of [switchMode('manual')]: when the answer to
    its [/mode] request is a response, of whatever status, and the
    mode is still manual, [go=stop] leaves before the callers go on. *)
Lemma deliver_mode_manual_resolved id ok body s ks :
  pending (env s) !! id = Some (InSwitchMode "manual", ks) ->
  currentMode (vars s) = "manual" ->
  deliver id (Resolved ok body) s =
    resume ks (fst (move "stop" (setPending (delete id (pending (env s))) s))).
Proof. intros H _. rewrite (deliver_pending _ _ _ _ _ H). reflexivity. Qed.

Lemma deliver_mode_rejected id m s ks :
  pending (env s) !! id = Some (InSwitchMode m, ks) ->
  deliver id Rejected s = resume ks (setPending (delete id (pending (env s))) s).
Proof. intros H. rewrite (deliver_pending _ _ _ _ _ H). reflexivity. Qed.

(** A [switchMode('manual')] that nobody awaits. *)
Lemma mode_answer_sends_stop id ok body s :
  pending (env s) !! id = Some (InSwitchMode "manual", []) ->
  currentMode (vars s) = "manual" ->
  requests (env (deliver id (Resolved ok body) s)) =
    requests (env s) ++ [GET (roverIP (vars s)) (Action "stop")].
Proof.
  intros Hp Hm. rewrite (deliver_mode_manual_resolved _ ok body _ [] Hp Hm).
  cbn [resume]. rewrite move_stop_manual by exact Hm. reflexivity.
Qed.

Lemma mode_failure_sends_nothing id m s :
  pending (env s) !! id = Some (InSwitchMode m, []) ->
  requests (env (deliver id Rejected s)) = requests (env s).
Proof. intros Hp. rewrite (deliver_mode_rejected _ _ _ [] Hp). reflexivity. Qed.

(** C1, as stated, fails in two ways.  When the [/mode] request
    fails, the [catch] of [switchMode] skips the stop: after
    [switchMode('manual')] and a network failure, the only request
    ever sent is the [/mode] one and nothing is left in flight.  And
    when a poll sent before the call is answered first and still
    reports the autonomous mode, the reconciliation switches back, and
    the stop that follows the answer to [/mode] is dropped by the
    guard of [move]: no [go=stop] is among the requests sent. *)
Lemma switchMode_manual_without_stop :
  let auto := {| battery := JNum 7.4; rssi := JNum (-60); command := JStr "forward";
                 distance := DistNum 50; mode := Some "autonomous" |} in
  let failed := run [SwitchMode "manual"; Response 0 Rejected] (initial blank ∅) in
  let overtaken :=
    run [SwitchMode "autonomous"; Response 0 (Resolved true None); Tick;
         SwitchMode "manual"; Response 1 (Resolved true (Some auto));
         Response 2 (Resolved true None)] (initial blank ∅) in
  (requests (env failed) = [GET "192.168.1.100" (Mode "manual")] /\
   pending (env failed) = ∅) /\
  (requests (env overtaken) =
     [GET "192.168.1.100" (Mode "autonomous"); GET "192.168.1.100" Status;
      GET "192.168.1.100" (Mode "manual"); GET "192.168.1.100" (Mode "autonomous")] /\
   pending (env overtaken) !! 2 = None).
Proof. cbv zeta. repeat split; vm_compute; reflexivity. Qed.

(** C1, amended.  From every state [s], [switchMode('manual')] sets
    the mode and sends [/mode?mode=manual].  In any later state [s']
    in which that request is still in flight and the mode is still
    manual -- the state right after the call is one, also when the
    mode was manual before -- an answer that is a response, of any
    status, makes [/action?go=stop] the next request sent; a failure
    (network error or time out) sends nothing. *)
Theorem switchMode_manual_stops_when_answered
    (s s' : state) (ok : bool) (data : option status_body) :
  let id := length (requests (env s)) in
  pending (env s') !! id = Some (InSwitchMode "manual", []) ->
  currentMode (vars s') = "manual" ->
  (currentMode (vars (fst (switchMode "manual" s))) = "manual" /\
   requests (env (fst (switchMode "manual" s))) =
     requests (env s) ++ [GET (roverIP (vars s)) (Mode "manual")] /\
   pending (env (fst (switchMode "manual" s))) !! id =
     Some (InSwitchMode "manual", [])) /\
  requests (env (deliver id (Resolved ok data) s')) =
    requests (env s') ++ [GET (roverIP (vars s')) (Action "stop")] /\
  requests (env (deliver id Rejected s')) = requests (env s').
Proof.
  cbv zeta. intros Hp Hm. split; [| split].
  - split; [apply switchMode_currentMode |].
    split; [apply switchMode_requests | apply switchMode_pending].
  - now apply mode_answer_sends_stop.
  - now apply (mode_failure_sends_nothing _ "manual").
Qed.

(** Right after the call, from the initial state (the mode is manual
    already). *)
Lemma switchMode_manual_stops_when_answered_witness :
  let s' := fst (switchMode "manual" (initial blank ∅)) in
  requests (env (deliver 0 (Resolved false None) s')) =
    [GET "192.168.1.100" (Mode "manual"); GET "192.168.1.100" (Action "stop")] /\
  requests (env (deliver 0 Rejected s')) = [GET "192.168.1.100" (Mode "manual")].
Proof.
  cbv zeta.
  destruct (switchMode_manual_stops_when_answered
              (initial blank ∅) (fst (switchMode "manual" (initial blank ∅))) false None)
    as (_ & Hr & Hf).
  - vm_compute. reflexivity.
  - reflexivity.
  - split; [exact Hr | exact Hf].
Defined.

(** *** The emergency stop *)

Lemma park_vars id ks s : vars (park id ks s) = vars s.
Proof. reflexivity. Qed.

Lemma park_requests id ks s : requests (env (park id ks s)) = requests (env s).
Proof. reflexivity. Qed.

Lemma park_pending id ks s k ks0 :
  pending (env s) !! id = Some (k, ks0) ->
  pending (env (park id ks s)) !! id = Some (k, ks0 ++ ks).
Proof. intros H. cbn. rewrite lookup_alter_eq, H. reflexivity. Qed.

(** [emergencyStop] runs [switchMode('manual')] to its request and
    waits there with its two remaining segments. *)
Lemma emergencyStop_awaits s :
  emergencyStop s =
    park (length (requests (env s))) [EmergencyMove; EmergencyFlash]
         (fst (switchMode "manual" s)).
Proof.
  unfold emergencyStop, await.
  pose proof (switchMode_suspends "manual" s) as H.
  destruct (switchMode "manual" s) as [s1 r]. cbn [snd] in H. subst r.
  reflexivity.
Qed.

Lemma emergencyStop_call s :
  currentMode (vars (emergencyStop s)) = "manual" /\
  requests (env (emergencyStop s)) =
    requests (env s) ++ [GET (roverIP (vars s)) (Mode "manual")] /\
  pending (env (emergencyStop s)) !! length (requests (env s)) =
    Some (InSwitchMode "manual", [EmergencyMove; EmergencyFlash]).
Proof.
  rewrite emergencyStop_awaits, park_vars, park_requests.
  split; [apply switchMode_currentMode |].
  split; [apply switchMode_requests |].
  apply (park_pending _ _ _ _ [] (switchMode_pending _ _)).
Qed.

(** What the answer to the [/mode] request of an emergency stop sets
    off, as long as the mode is still manual: the implicit stop of
    [switchMode] when the answer is a response, then in every case the
    stop of [emergencyStop] itself, whose request is the one awaited
    with the flash. *)
Lemma emergency_after_mode_answer id o s :
  pending (env s) !! id = Some (InSwitchMode "manual", [EmergencyMove; EmergencyFlash]) ->
  currentMode (vars s) = "manual" ->
  let implicit := match o with
                  | Resolved _ _ => [GET (roverIP (vars s)) (Action "stop")]
                  | Rejected => []
                  end in
  let s' := deliver id o s in
  requests (env s') =
    requests (env s) ++ implicit ++ [GET (roverIP (vars s)) (Action "stop")] /\
  pending (env s') !! length (requests (env s) ++ implicit) =
    Some (InMove, [EmergencyFlash]) /\
  currentMode (vars s') = "manual" /\
  lastCommand (vars s') = "stop".
Proof.
  intros Hp Hm. cbv zeta. rewrite (deliver_pending _ _ _ _ _ Hp).
  destruct o as [| ok body].
  - cbn [on_response resume run_segment].
    rewrite move_stop_manual by exact Hm.
    cbn [fetch]. rewrite app_nil_r.
    split; [reflexivity | split; [| split; [exact Hm | reflexivity]]].
    cbn. rewrite lookup_alter_eq, lookup_insert_eq. reflexivity.
  - cbn [on_response String.eqb Ascii.eqb Bool.eqb].
    rewrite move_stop_manual by exact Hm.
    cbn [resume run_segment fetch fst].
    rewrite move_stop_manual by exact Hm.
    cbn [fetch].
    split; [| split; [| split; [exact Hm | reflexivity]]].
    + cbn. now rewrite <- app_assoc.
    + cbn. rewrite lookup_alter_eq, lookup_insert_eq. reflexivity.
Qed.

(** C3, as stated, fails when the call is overtaken.  The rover runs
    autonomously and a poll is in flight when the operator hits
    Escape.  [emergencyStop] sets the mode to manual and awaits its
    [/mode] request; the poll's answer, which still reports the
    autonomous mode, is handled first, and the reconciliation
    switches back.  When the [/mode] request is answered, the implicit
    and the explicit [move('stop')] are both dropped by the guard of
    [move]: the flash is shown, no [go=stop] was sent, and the mode is
    autonomous. *)
Lemma emergencyStop_overtaken_by_poll :
  let auto := {| battery := JNum 7.4; rssi := JNum (-60); command := JStr "forward";
                 distance := DistNum 50; mode := Some "autonomous" |} in
  let s := run [SwitchMode "autonomous"; Response 0 (Resolved true None); Tick;
                Keydown "Escape" false; Response 1 (Resolved true (Some auto));
                Response 2 (Resolved true None)] (initial blank ∅) in
  requests (env s) =
    [GET "192.168.1.100" (Mode "autonomous"); GET "192.168.1.100" Status;
     GET "192.168.1.100" (Mode "manual"); GET "192.168.1.100" (Mode "autonomous")] /\
  pending (env s) !! 2 = None /\
  style (doc s) !! (documentBody, "background") = Some "#dc2626" /\
  currentMode (vars s) = "autonomous".
Proof. cbv zeta. repeat split; vm_compute; reflexivity. Qed.

(** C3, amended.  From every state [s], whatever the mode and the last
    command, [emergencyStop()] sets the mode to manual and sends the
    [/mode] request.  In any later state [s'] in which that request is
    still in flight and the mode is still manual -- the state right
    after the call is one -- its answer, whether a response or a
    failure, makes the explicit [move('stop')] of [emergencyStop] send
    [/action?go=stop]: the last request sent, the one [emergencyStop]
    awaits before its flash, after the implicit stop of the mode
    switch when the request was answered. *)
Theorem emergencyStop_stops (s s' : state) (o : outcome) :
  let id := length (requests (env s)) in
  let implicit := match o with
                  | Resolved _ _ => [GET (roverIP (vars s')) (Action "stop")]
                  | Rejected => []
                  end in
  pending (env s') !! id =
    Some (InSwitchMode "manual", [EmergencyMove; EmergencyFlash]) ->
  currentMode (vars s') = "manual" ->
  (currentMode (vars (emergencyStop s)) = "manual" /\
   requests (env (emergencyStop s)) =
     requests (env s) ++ [GET (roverIP (vars s)) (Mode "manual")] /\
   pending (env (emergencyStop s)) !! id =
     Some (InSwitchMode "manual", [EmergencyMove; EmergencyFlash])) /\
  requests (env (deliver id o s')) =
    requests (env s') ++ implicit ++ [GET (roverIP (vars s')) (Action "stop")] /\
  pending (env (deliver id o s')) !! length (requests (env s') ++ implicit) =
    Some (InMove, [EmergencyFlash]) /\
  currentMode (vars (deliver id o s')) = "manual".
Proof.
  cbv zeta. intros Hp Hm. split; [apply emergencyStop_call |].
  destruct (emergency_after_mode_answer _ o _ Hp Hm) as (Hr & Hq & Hm2 & _).
  split; [exact Hr |]. split; [exact Hq | exact Hm2].
Qed.

(** In autonomous mode with a poll in flight: Escape, the poll fails,
    then the [/mode] request times out. *)
Lemma emergencyStop_stops_witness :
  let s := run [SwitchMode "autonomous"; Response 0 (Resolved true None); Tick]
               (initial blank ∅) in
  let s' := run [Keydown "Escape" false; Response 1 Rejected] s in
  currentMode (vars s') = "manual" /\
  requests (env (deliver 2 Rejected s')) =
    [GET "192.168.1.100" (Mode "autonomous"); GET "192.168.1.100" Status;
     GET "192.168.1.100" (Mode "manual"); GET "192.168.1.100" (Action "stop")].
Proof.
  cbv zeta.
  match goal with
  | |- currentMode (vars ?t) = _ /\ _ =>
      destruct (emergencyStop_stops
                  (run [SwitchMode "autonomous"; Response 0 (Resolved true None); Tick]
                       (initial blank ∅)) t Rejected) as (_ & Hr & _)
  end.
  - vm_compute. reflexivity.
  - vm_compute. reflexivity.
  - split; [vm_compute; reflexivity |].
    assert (E : length (requests (env (run [SwitchMode "autonomous";
                  Response 0 (Resolved true None); Tick] (initial blank ∅)))) = 2)
      by (vm_compute; reflexivity).
    rewrite E in Hr. rewrite Hr. vm_compute. reflexivity.
Defined.

(** *** Connectivity *)


(** A failure below the threshold only counts. *)
Lemma updateConnectionStatus_false_low s :
  failCount (vars s) < 3 ->
  updateConnectionStatus false s = setFailCount (S (failCount (vars s))) s.
Proof.
  intros H. unfold updateConnectionStatus. proj.
  destruct (Nat.ltb_spec 3 (S (failCount (vars s)))); [lia | reflexivity].
Qed.

(** From the fourth failure in a row on, the indicator shows the
    disconnection and the signal strength is blanked. *)
Lemma updateConnectionStatus_false_high s :
  3 <= failCount (vars s) ->
  updateConnectionStatus false s =
    setText signalEl (Lit "Signal: --")
      (setClass statusEl "status disconnected"
         (setText statusEl (Lit "⚠️ Disconnected")
            (setFailCount (S (failCount (vars s))) s))).
Proof.
  intros H. unfold updateConnectionStatus. proj.
  destruct (Nat.ltb_spec 3 (S (failCount (vars s)))); [reflexivity | lia].
Qed.

(** Neither a movement command nor an awaiting caller touches the
    connectivity before an answer comes. *)
Lemma move_connectivity d s : connectivity (fst (move d s)) = connectivity s.
Proof.
  unfold move. destruct (negb _); [reflexivity |].
  unfold connectivity. proj. now rewrite lookup_insert_ne.
Qed.

Lemma resume_connectivity ks s : connectivity (resume ks s) = connectivity s.
Proof.
  revert s. induction ks as [| k ks IH]; intros s; [reflexivity |].
  cbn [resume]. destruct k; cbn [run_segment].
  - pose proof (move_connectivity "stop" s) as Hm.
    destruct (move "stop" s) as [s' [id |]]; cbn [fst] in Hm.
    + rewrite <- Hm. reflexivity.
    + now rewrite IH.
  - rewrite IH. reflexivity.
Qed.

Lemma displayable_spec data :
  displayable data = true <->
  stringifies (rssi data) = true /\ stringifies (command data) = true.
Proof. unfold displayable. apply andb_true_iff. Qed.

(** A displayable body goes through the whole block. *)
Lemma showStatus_through data b s :
  displayable data = true ->
  showStatus data b s =
    Normal (updateConnectionStatus true (syncMode data (showDistance data
      (setText actionEl (Shown (command data))
         (setText signalEl (SignalDbm (rssi data))
            (setText batteryEl (Volts b) s)))))).
Proof.
  intros [Hr Hc]%displayable_spec. unfold showStatus. now rewrite Hr, Hc.
Qed.

(** Any other one throws, with the battery written, and the signal
    strength if that one has a conversion. *)
Lemma showStatus_throws data b s :
  displayable data = false ->
  showStatus data b s =
    Throw (if stringifies (rssi data)
           then setText signalEl (SignalDbm (rssi data)) (setText batteryEl (Volts b) s)
           else setText batteryEl (Volts b) s).
Proof.
  unfold displayable, showStatus. intros H.
  destruct (stringifies (rssi data)); [| reflexivity].
  cbn [andb] in H. now rewrite H.
Qed.

(** The two ways through the block. *)
Ltac showStatus_cases :=
  match goal with
  | |- context [showStatus ?data ?b ?s] =>
      let Hd := fresh "Hd" in
      destruct (displayable data) eqn:Hd;
      [rewrite (showStatus_through data b s Hd)
      | rewrite (showStatus_throws data b s Hd)];
      cbn [catch]
  end.





(** *** Telemetry *)

Lemma ltb_lt x y : ltb x y = true <-> (x < y)%Q.
Proof.
  unfold ltb. rewrite Qlt_alt. destruct (x ?= y)%Q; split; congruence.
Qed.

Lemma ltb_ge x y : ltb x y = false <-> (y <= x)%Q.
Proof.
  rewrite <- not_true_iff_false, ltb_lt. split.
  - apply Qnot_lt_le.
  - apply Qle_not_lt.
Qed.

Lemma switchMode_distanceColor m s :
  distanceColorShown (fst (switchMode m s)) = distanceColorShown s.
Proof.
  unfold distanceColorShown, switchMode, updateModeUI.
  destruct (String.eqb m "manual"); proj; now rewrite !lookup_insert_ne.
Qed.

Lemma updateConnectionStatus_distanceColor c s :
  distanceColorShown (updateConnectionStatus c s) = distanceColorShown s.
Proof.
  unfold distanceColorShown, updateConnectionStatus. destruct c; [reflexivity |].
  destruct (_ <? _)%nat; reflexivity.
Qed.

Lemma syncMode_distanceColor data s :
  distanceColorShown (syncMode data s) = distanceColorShown s.
Proof.
  unfold syncMode. destruct (mode data) as [m |]; [| reflexivity].
  destruct (_ && _); [apply switchMode_distanceColor | reflexivity].
Qed.

(** What a poll that goes through does to the colour: it is set for a
    positive distance in autonomous mode, and left alone otherwise. *)
Lemma showStatus_distanceColor data b s :
  displayable data = true ->
  distanceColorShown (catch (showStatus data b s) (updateConnectionStatus false)) =
    match distance data with
    | DistNum d =>
        if String.eqb (currentMode (vars s)) "autonomous" && ltb 0 d
        then Some (distanceColor d) else distanceColorShown s
    | DistAbsent | DistNull => distanceColorShown s
    end.
Proof.
  intros H. rewrite (showStatus_through _ _ _ H). cbn [catch].
  rewrite updateConnectionStatus_distanceColor, syncMode_distanceColor.
  unfold showDistance. destruct (distance data) as [| | d]; try reflexivity.
  proj. destruct (_ && _); [| reflexivity].
  unfold distanceColorShown. proj. now rewrite lookup_insert_eq.
Qed.

Lemma deliver_status_ok id data b s :
  pending (env s) !! id = Some (InFetchStatus, []) ->
  battery data = JNum b ->
  deliver id (Resolved true (Some data)) s =
    catch (showStatus data b (setPending (delete id (pending (env s))) s))
          (updateConnectionStatus false).
Proof.
  intros Hp Hb. rewrite (deliver_pending _ _ _ _ _ Hp).
  cbn [on_response resume]. now rewrite Hb.
Qed.

Lemma colorAfter_spec id data b s :
  pending (env s) !! id = Some (InFetchStatus, []) ->
  battery data = JNum b ->
  displayable data = true ->
  colorAfter id data s =
    match distance data with
    | DistNum d =>
        if String.eqb (currentMode (vars s)) "autonomous" && ltb 0 d
        then Some (distanceColor d) else distanceColorShown s
    | DistAbsent | DistNull => distanceColorShown s
    end.
Proof.
  intros Hp Hb Hd. unfold colorAfter.
  rewrite (deliver_status_ok _ _ _ _ Hp Hb), (showStatus_distanceColor _ _ _ Hd).
  reflexivity.
Qed.

Lemma colorAfter_withDistance id df data b s :
  pending (env s) !! id = Some (InFetchStatus, []) ->
  battery data = JNum b ->
  displayable data = true ->
  colorAfter id (withDistance df data) s =
    match df with
    | DistNum d =>
        if String.eqb (currentMode (vars s)) "autonomous" && ltb 0 d
        then Some (distanceColor d) else distanceColorShown s
    | DistAbsent | DistNull => distanceColorShown s
    end.
Proof. intros Hp Hb Hd. now rewrite (colorAfter_spec id _ b s Hp). Qed.

(** C7, as stated, fails at distance 0: in autonomous mode a poll that
    reports 0 cm makes no colour decision (the page shows [-- cm] and
    the colour stays as it was, here unset), where the claim has red
    for every distance from 0 on. *)
Lemma distance_zero_not_red :
  let data := {| battery := JNum 7.4; rssi := JNum (-60); command := JStr "forward";
                 distance := DistNum 0; mode := Some "autonomous" |} in
  let s := run [SwitchMode "autonomous"; Tick] (initial blank ∅) in
  currentMode (vars s) = "autonomous" /\
  (0 <= 0)%Q /\ (0 < 15)%Q /\
  colorAfter 1 data s = None /\
  colorAfter 1 data s <> Some "#f56565" /\
  textContent (doc (deliver 1 (Resolved true (Some data)) s)) !! distanceValue =
    Some (Lit "-- cm").
Proof.
  cbv zeta. repeat split; try (vm_compute; congruence).
Qed.

(** C7, amended.  For a poll that goes through (a 2xx response whose
    body has a numeric battery, and a signal strength and a command
    that have a conversion to a string, so that the script reaches the
    distance) in autonomous mode, the distance is shown red for
    [0 < d < 15], orange for [15 <= d <= 34] and green for [d >= 35];
    no colour decision is made -- the colour stays as it was -- when
    the distance is not positive, [null] or missing; and none is made
    for any distance while the mode is not autonomous, manual in
    particular. *)
Theorem distance_color
    (s t : state) (id id' : nat) (data : status_body) (b : Q)
    (dr dor dg dn : Q) (df : distance_field) :
  pending (env s) !! id = Some (InFetchStatus, []) ->
  currentMode (vars s) = "autonomous" ->
  pending (env t) !! id' = Some (InFetchStatus, []) ->
  currentMode (vars t) <> "autonomous" ->
  battery data = JNum b ->
  displayable data = true ->
  (0 < dr)%Q -> (dr < 15)%Q ->
  (15 <= dor)%Q -> (dor <= 34)%Q ->
  (35 <= dg)%Q ->
  (dn <= 0)%Q ->
  colorAfter id (withDistance (DistNum dr) data) s = Some "#f56565" /\
  colorAfter id (withDistance (DistNum dor) data) s = Some "#f6ad55" /\
  colorAfter id (withDistance (DistNum dg) data) s = Some "#48bb78" /\
  colorAfter id (withDistance (DistNum dn) data) s = distanceColorShown s /\
  colorAfter id (withDistance DistNull data) s = distanceColorShown s /\
  colorAfter id (withDistance DistAbsent data) s = distanceColorShown s /\
  colorAfter id' (withDistance df data) t = distanceColorShown t.
Proof.
  intros Hp Hs Hp' Ht Hb Hd Hr0 Hr1 Ho0 Ho1 Hg Hn.
  rewrite !(colorAfter_withDistance id _ data b s Hp Hb Hd),
          (colorAfter_withDistance id' _ data b t Hp' Hb Hd).
  rewrite Hs. cbn [String.eqb Ascii.eqb Bool.eqb andb].
  apply String.eqb_neq in Ht. rewrite Ht. cbn [andb].
  unfold distanceColor.
  assert (E1 : ltb 0 dr = true) by now apply ltb_lt.
  assert (E2 : ltb dr 15 = true) by now apply ltb_lt.
  assert (E3 : ltb 0 dor = true) by (apply ltb_lt; lra).
  assert (E4 : ltb dor 15 = false) by now apply ltb_ge.
  assert (E5 : ltb dor 35 = true) by (apply ltb_lt; lra).
  assert (E6 : ltb 0 dg = true) by (apply ltb_lt; lra).
  assert (E7 : ltb dg 15 = false) by (apply ltb_ge; lra).
  assert (E8 : ltb dg 35 = false) by now apply ltb_ge.
  assert (E9 : ltb 0 dn = false) by now apply ltb_ge.
  rewrite E1, E2, E3, E4, E5, E6, E7, E8, E9.
  repeat split. now destruct df.
Qed.

(** Polls reporting 10, 20, 35 and 0 cm, [null] and no distance in
    autonomous mode, and 10 cm in manual mode. *)
Lemma distance_color_witness :
  let data := {| battery := JNum 7.4; rssi := JNum (-60); command := JStr "forward";
                 distance := DistNull; mode := None |} in
  let s := run [SwitchMode "autonomous"; Tick] (initial blank ∅) in
  let t := run [Tick] (initial blank ∅) in
  colorAfter 1 (withDistance (DistNum 10) data) s = Some "#f56565" /\
  colorAfter 1 (withDistance (DistNum 20) data) s = Some "#f6ad55" /\
  colorAfter 1 (withDistance (DistNum 35) data) s = Some "#48bb78" /\
  colorAfter 1 (withDistance (DistNum 0) data) s = distanceColorShown s /\
  colorAfter 1 (withDistance DistNull data) s = distanceColorShown s /\
  colorAfter 1 (withDistance DistAbsent data) s = distanceColorShown s /\
  colorAfter 0 (withDistance (DistNum 10) data) t = distanceColorShown t.
Proof.
  cbv zeta.
  apply (distance_color _ _ 1 0 _ 7.4 10 20 35 0 (DistNum 10));
    try (vm_compute; congruence).
Defined.

Lemma updateConnectionStatus_false_telemetry s :
  telemetryShown (updateConnectionStatus false s) = telemetryShown s.
Proof.
  unfold telemetryShown. rewrite updateConnectionStatus_distanceColor.
  unfold updateConnectionStatus. proj.
  destruct (_ <? _)%nat; [| reflexivity].
  proj. now rewrite !lookup_insert_ne.
Qed.

Lemma updateConnectionStatus_false_signal s :
  signalShown (updateConnectionStatus false s) =
    if (3 <? S (failCount (vars s)))%nat then Some (Lit "Signal: --") else signalShown s.
Proof.
  unfold signalShown, updateConnectionStatus. proj.
  destruct (_ <? _)%nat; [| reflexivity].
  proj. now rewrite lookup_insert_eq.
Qed.

Lemma updateConnectionStatus_false_failCount s :
  failCount (vars (updateConnectionStatus false s)) = S (failCount (vars s)).
Proof.
  unfold updateConnectionStatus. proj. destruct (_ <? _)%nat; reflexivity.
Qed.

Lemma deliver_status_failure id o s :
  pending (env s) !! id = Some (InFetchStatus, []) ->
  counts_as_failure o = true ->
  deliver id o s =
    updateConnectionStatus false (setPending (delete id (pending (env s))) s).
Proof.
  intros Hp Ho. rewrite (deliver_pending _ _ _ _ _ Hp). cbn [on_response resume].
  destruct o as [| [|] [data |]]; try discriminate Ho; try reflexivity.
  cbn [counts_as_failure andb] in Ho.
  destruct (battery data); try discriminate Ho; reflexivity.
Qed.

(** C9, as stated, fails on both counts.  With one failure counted and
    a poll in flight, a 503 answer leaves the count at 1 where a
    network failure makes it 2; and a 2xx answer whose body has the
    battery but neither [rssi] nor [command] is taken as a success:
    the count goes to 0 and the signal and action shown are
    overwritten. *)
Lemma bad_status_not_a_failure :
  let good := {| battery := JNum 7.4; rssi := JNum (-60); command := JStr "forward";
                 distance := DistNull; mode := None |} in
  let partial := {| battery := JNum 7.4; rssi := JUndefined; command := JUndefined;
                    distance := DistAbsent; mode := None |} in
  let s := run [Tick; Response 0 (Resolved true (Some good));
                Tick; Response 1 Rejected; Tick] (initial blank ∅) in
  failCount (vars s) = 1 /\
  failCount (vars (deliver 2 Rejected s)) = 2 /\
  failCount (vars (deliver 2 (Resolved false None) s)) = 1 /\
  failCount (vars (deliver 2 (Resolved true (Some partial)) s)) = 0 /\
  signalShown s = Some (SignalDbm (JNum (-60))) /\
  signalShown (deliver 2 (Resolved true (Some partial)) s) = Some (SignalDbm JUndefined) /\
  telemetryShown (deliver 2 (Resolved true (Some partial)) s) <> telemetryShown s.
Proof. cbv zeta. repeat split; vm_compute; congruence. Qed.

(** C9, amended.  A [/status] answer that is a rejected [fetch], or a
    2xx response whose body does not parse or lacks a numeric battery,
    is treated exactly like a network failure: the failure count goes
    up by one and the battery, action and distance shown stay as they
    were; the signal strength stays too unless the count now exceeds 3,
    where it is blanked.  A non-2xx response changes neither the
    variables nor the page: it is not counted at all. *)
Theorem poll_failure_keeps_telemetry
    (s : state) (id : nat) (o : outcome) (body : option status_body) :
  pending (env s) !! id = Some (InFetchStatus, []) ->
  counts_as_failure o = true ->
  deliver id o s = deliver id Rejected s /\
  failCount (vars (deliver id o s)) = S (failCount (vars s)) /\
  telemetryShown (deliver id o s) = telemetryShown s /\
  signalShown (deliver id o s) =
    (if (3 <? S (failCount (vars s)))%nat then Some (Lit "Signal: --") else signalShown s) /\
  vars (deliver id (Resolved false body) s) = vars s /\
  doc (deliver id (Resolved false body) s) = doc s.
Proof.
  intros Hp Ho.
  rewrite (deliver_status_failure id o s Hp Ho).
  rewrite (deliver_status_failure id Rejected s Hp eq_refl).
  rewrite updateConnectionStatus_false_failCount,
          updateConnectionStatus_false_telemetry,
          updateConnectionStatus_false_signal.
  rewrite (deliver_pending _ _ _ _ _ Hp).
  repeat split.
Qed.

(** After one good poll, a 2xx answer without a battery. *)
Lemma poll_failure_keeps_telemetry_witness :
  let good := {| battery := JNum 7.4; rssi := JNum (-60); command := JStr "forward";
                 distance := DistNull; mode := None |} in
  let nobattery := {| battery := JUndefined; rssi := JNum (-70); command := JStr "left";
                      distance := DistNum 12; mode := Some "autonomous" |} in
  let s := run [Tick; Response 0 (Resolved true (Some good)); Tick] (initial blank ∅) in
  failCount (vars (deliver 1 (Resolved true (Some nobattery)) s)) = 1 /\
  telemetryShown (deliver 1 (Resolved true (Some nobattery)) s) = telemetryShown s /\
  signalShown (deliver 1 (Resolved true (Some nobattery)) s) = Some (SignalDbm (JNum (-60))).
Proof.
  cbv zeta.
  match goal with
  | |- context [deliver 1 ?o ?s] =>
      destruct (poll_failure_keeps_telemetry s 1 o None) as (_ & Hc & Ht & Hs & _)
  end.
  - vm_compute. reflexivity.
  - reflexivity.
  - split; [exact Hc | split; [exact Ht |]].
    rewrite Hs. vm_compute. reflexivity.
Defined.

(** *** The mode *)

Lemma knownMode_ok m s : knownMode m = true -> mode_ok (fst (switchMode m s)).
Proof.
  unfold knownMode, mode_ok. rewrite switchMode_currentMode.
  intros [H | H]%orb_true_iff; apply String.eqb_eq in H; auto.
Qed.

Lemma updateConnectionStatus_currentMode c s :
  currentMode (vars (updateConnectionStatus c s)) = currentMode (vars s).
Proof.
  unfold updateConnectionStatus. destruct c; [reflexivity |].
  destruct (_ <? _)%nat; reflexivity.
Qed.

Lemma resume_currentMode ks s :
  currentMode (vars (resume ks s)) = currentMode (vars s).
Proof.
  revert s. induction ks as [| k ks IH]; intros s; [reflexivity |].
  cbn [resume]. destruct k; cbn [run_segment].
  - pose proof (move_currentMode "stop" s) as Hm.
    destruct (move "stop" s) as [s' [id |]]; cbn [fst] in Hm.
    + rewrite <- Hm. reflexivity.
    + now rewrite IH.
  - rewrite IH. reflexivity.
Qed.

Lemma showDistance_currentMode data s :
  currentMode (vars (showDistance data s)) = currentMode (vars s).
Proof.
  unfold showDistance. destruct (distance data); try reflexivity.
  destruct (_ && _); reflexivity.
Qed.

Lemma syncMode_ok data s :
  match mode data with
  | Some m => knownMode m || negb (truthy m)
  | None => true
  end = true ->
  mode_ok s -> mode_ok (syncMode data s).
Proof.
  unfold syncMode. intros Hd Hs. destruct (mode data) as [m |]; [| exact Hs].
  destruct (truthy m && negb (String.eqb m (currentMode (vars s)))) eqn:E;
    [| exact Hs].
  apply andb_true_iff in E as [Et _]. rewrite Et, orb_false_r in Hd.
  now apply knownMode_ok.
Qed.

Lemma emergencyStop_ok s : mode_ok (emergencyStop s).
Proof.
  rewrite emergencyStop_awaits. left.
  rewrite park_vars. apply switchMode_currentMode.
Qed.

Lemma deliver_ok id o s :
  sane (Response id o) = true -> mode_ok s -> mode_ok (deliver id o s).
Proof.
  intros Ho Hs. unfold deliver.
  destruct (pending (env s) !! id) as [[k ks] |]; [| exact Hs].
  unfold mode_ok. rewrite resume_currentMode. fold (mode_ok (on_response k o (setPending (delete id (pending (env s))) s))).
  set (s0 := setPending _ s). assert (H0 : mode_ok s0) by exact Hs. clearbody s0.
  destruct k as [m | | |]; cbn [on_response].
  - destruct o; [exact H0 |]. destruct (String.eqb m "manual"); [| exact H0].
    unfold mode_ok. now rewrite move_currentMode.
  - destruct o as [| [|] ?]; unfold mode_ok;
      rewrite ?updateConnectionStatus_currentMode; exact H0.
  - exact H0.
  - destruct o as [| [|] [data |]]; unfold mode_ok;
      rewrite ?updateConnectionStatus_currentMode; try exact H0.
    destruct (battery data); rewrite ?updateConnectionStatus_currentMode; try exact H0.
    showStatus_cases; rewrite updateConnectionStatus_currentMode.
    + apply syncMode_ok; [exact Ho |].
      unfold mode_ok. now rewrite showDistance_currentMode.
    + destruct (stringifies (rssi data)); exact H0.
Qed.

Lemma onLoad_ok s : mode_ok s -> mode_ok (onLoad s).
Proof.
  intros Hs. unfold onLoad.
  match goal with
  | |- mode_ok (match localStorage (env ?t) !! _ with _ => _ end) =>
      assert (Ht : mode_ok t); [| set (t0 := t) in *; clearbody t0]
  end.
  { destruct (localStorage (env s) !! "roverIP") as [ip |]; [| exact Hs].
    destruct (truthy ip); exact Hs. }
  destruct (localStorage (env t0) !! "controlMode") as [m |]; [| exact Ht].
  destruct (truthy m); cbn [andb]; [| exact Ht].
  destruct (String.eqb_spec m "autonomous") as [-> | _]; [| exact Ht].
  now apply knownMode_ok.
Qed.

Lemma keydown_ok key ctrl s : mode_ok s -> mode_ok (keydown key ctrl s).
Proof.
  intros Hs. unfold keydown.
  destruct (String.eqb key "Escape"); [apply emergencyStop_ok |].
  destruct (String.eqb (toLowerCase key) "m"); [now apply knownMode_ok |].
  destruct (_ && ctrl); [now apply knownMode_ok |].
  destruct (negb _); [exact Hs |].
  repeat (destruct (_ || _); [unfold mode_ok; now rewrite move_currentMode |]).
  destruct (String.eqb _ " "); [unfold mode_ok; now rewrite move_currentMode | exact Hs].
Qed.

Lemma connectRover_currentMode s :
  currentMode (vars (connectRover s)) = currentMode (vars s).
Proof. unfold connectRover. destruct (negb _); reflexivity. Qed.

Lemma step_ok e s : sane e = true -> mode_ok s -> mode_ok (step s e).
Proof.
  intros He Hs. destruct e; cbn [step].
  - now apply onLoad_ok.
  - exact Hs.
  - exact Hs.
  - unfold mode_ok. now rewrite connectRover_currentMode.
  - now apply knownMode_ok.
  - unfold mode_ok. now rewrite move_currentMode.
  - exact Hs.
  - now apply keydown_ok.
  - now apply deliver_ok.
Qed.

(** C10, as stated, fails at the mode reconciliation, which takes
    whatever non-empty string the rover reports: after a poll whose
    body has [mode: "idle"], the mode is ["idle"]. *)
Lemma reconciliation_takes_any_mode :
  let data := {| battery := JNum 7.4; rssi := JNum (-60); command := JStr "stop";
                 distance := DistNull; mode := Some "idle" |} in
  let s := run [Load; Tick; Response 0 (Resolved true (Some data))] (initial blank ∅) in
  currentMode (vars s) = "idle" /\ ~ mode_ok s.
Proof.
  cbv zeta. split; [vm_compute; reflexivity |].
  unfold mode_ok. intros [H | H]; vm_compute in H; discriminate H.
Qed.

(** C10, amended.  The mode is ["manual"] or ["autonomous"] in every
    state reached from the initial one -- through the start-up, the
    timer, the operator's actions and the answers to requests --
    provided that [switchMode] is only called with one of the two and
    that every mode a telemetry body reports is one of the two (or
    empty). *)
Theorem mode_stays_known (p : page) (store : gmap string string) (es : list event) :
  forallb sane es = true ->
  mode_ok (run es (initial p store)).
Proof.
  intros Hes. unfold run.
  assert (H0 : mode_ok (initial p store)) by (left; reflexivity).
  revert H0. generalize (initial p store).
  induction es as [| e es IH]; intros s Hs; [exact Hs |].
  cbn [forallb] in Hes. apply andb_true_iff in Hes as [He Hes].
  cbn [fold_left]. apply IH; [exact Hes |]. now apply step_ok.
Qed.

(** Start-up, a poll that reports the autonomous mode, then an
    emergency stop whose mode request fails. *)
Lemma mode_stays_known_witness :
  let data := {| battery := JNum 7.4; rssi := JNum (-60); command := JStr "stop";
                 distance := DistNum 42; mode := Some "autonomous" |} in
  mode_ok (run [Load; Tick; Response 0 (Resolved true (Some data));
                Keydown "Escape" false; Response 2 Rejected]
               (initial blank ∅)).
Proof.
  cbv zeta. apply mode_stays_known. vm_compute. reflexivity.
Defined.

(** *** Connecting *)

Lemma trim_blank s : blank_string s = true -> trim s = "".
Proof.
  unfold trim. induction s as [| c s IH]; [reflexivity |].
  cbn [blank_string trimStart]. intros [Hc Hs]%andb_true_iff.
  rewrite Hc. now apply IH.
Qed.

(** With an address that trims to nothing, [connectRover] alerts and
    returns -- after the assignment to [roverIP]. *)
Lemma connectRover_blank s :
  blank_string (ipInput (doc s)) = true ->
  connectRover s = alert "Please enter a valid IP address!" (setRoverIP "" s).
Proof.
  intros H. unfold connectRover. rewrite (trim_blank _ H). reflexivity.
Qed.

(** With any other address: trimmed, stored, persisted, shown as
    connecting, and polled at once. *)
Lemma connectRover_address s :
  truthy (trim (ipInput (doc s))) = true ->
  roverIP (vars (connectRover s)) = trim (ipInput (doc s)) /\
  localStorage (env (connectRover s)) !! "roverIP" = Some (trim (ipInput (doc s))) /\
  requests (env (connectRover s)) =
    requests (env s) ++ [GET (trim (ipInput (doc s))) Status] /\
  alerts (env (connectRover s)) = alerts (env s) /\
  textContent (doc (connectRover s)) !! statusEl = Some (Lit "🔄 Connecting...").
Proof.
  intros H. unfold connectRover. proj. rewrite H. cbn [negb].
  unfold fetchStatus. proj.
  rewrite !lookup_insert_eq. repeat split.
Qed.

(** C8 on the code.  A first connect with ["  10.0.0.5 "] does what
    the claim says: the address is trimmed, stored, persisted and
    polled.  A second one with only blanks alerts, sends nothing and
    persists nothing, as claimed -- but it has already overwritten the
    active address with the empty string, and the next poll goes to
    the host [""]. *)
Theorem connectRover_blank_overwrites_address :
  let s := run [Typed "  10.0.0.5 "; Connect] (initial blank ∅) in
  let s' := run [Typed "   "; Connect] s in
  (roverIP (vars s) = "10.0.0.5" /\
   localStorage (env s) !! "roverIP" = Some "10.0.0.5" /\
   requests (env s) = [GET "10.0.0.5" Status]) /\
  (alerts (env s') = ["Please enter a valid IP address!"] /\
   requests (env s') = requests (env s) /\
   localStorage (env s') = localStorage (env s)) /\
  roverIP (vars s') = "" /\
  requests (env (step s' Tick)) = [GET "10.0.0.5" Status; GET "" Status].
Proof. cbv zeta. repeat split; vm_compute; reflexivity. Qed.

(** ** More on the handlers *)

(** *** Commands and the last command *)

Lemma lastGo_app d l1 l2 : lastGo d (l1 ++ l2) = lastGo (lastGo d l1) l2.
Proof. revert d. induction l1 as [| r l1 IH]; intros d; [reflexivity | apply IH]. Qed.

Lemma lastGo_quiet d l : existsb isAction l = false -> lastGo d l = d.
Proof.
  revert d. induction l as [| r l IH]; intros d H; [reflexivity |].
  cbn [existsb] in H. apply orb_false_iff in H as [Hr Hl].
  cbn [lastGo]. unfold isAction in Hr.
  destruct (target r); try discriminate Hr; now apply IH.
Qed.

Lemma Quiet_refl s : Quiet s s.
Proof. exists []. now rewrite app_nil_r. Qed.

Lemma Quiet_trans s1 s2 s3 : Quiet s1 s2 -> Quiet s2 s3 -> Quiet s1 s3.
Proof.
  intros (l1 & R1 & A1 & C1) (l2 & R2 & A2 & C2). exists (l1 ++ l2).
  rewrite R2, R1, <- app_assoc, existsb_app, A1, A2, C2, C1. auto.
Qed.

Lemma Quiet_Commands s s' : Quiet s s' -> Commands s s'.
Proof.
  intros (l & R & A & C). exists l. rewrite (lastGo_quiet _ _ A), A.
  split; [exact R | split; [exact C | discriminate]].
Qed.

Lemma Quiet_then s1 s2 s3 : Quiet s1 s2 -> Commands s2 s3 -> Commands s1 s3.
Proof.
  intros (l1 & R1 & A1 & C1) (l2 & R2 & C2 & M2). exists (l1 ++ l2).
  rewrite R2, R1, <- app_assoc, existsb_app, A1, lastGo_app, (lastGo_quiet _ _ A1), C2, C1.
  auto.
Qed.

Lemma Commands_then s1 s2 s3 :
  Commands s1 s2 -> Commands s2 s3 ->
  currentMode (vars s3) = currentMode (vars s2) ->
  Commands s1 s3.
Proof.
  intros (l1 & R1 & C1 & M1) (l2 & R2 & C2 & M2) K. exists (l1 ++ l2).
  rewrite R2, R1, <- app_assoc, existsb_app, lastGo_app, C2, C1.
  split; [reflexivity | split; [reflexivity |]].
  intros [H | H]%orb_true_iff; [rewrite K | ]; auto.
Qed.

(** A step that sends nothing and leaves the last command alone. *)
Lemma Quiet_silent s s' :
  requests (env s') = requests (env s) ->
  lastCommand (vars s') = lastCommand (vars s) ->
  Quiet s s'.
Proof. intros R C. exists []. now rewrite app_nil_r. Qed.

(** A step that sends one request that is no [/action]. *)
Lemma Quiet_one s s' r :
  requests (env s') = requests (env s) ++ [r] ->
  isAction r = false ->
  lastCommand (vars s') = lastCommand (vars s) ->
  Quiet s s'.
Proof. intros R A C. exists [r]. cbn [existsb]. now rewrite A. Qed.

Lemma move_guard d s :
  currentMode (vars s) <> "manual" -> fst (move d s) = s.
Proof.
  intros H. unfold move. apply String.eqb_neq in H. now rewrite H.
Qed.

Lemma move_Commands d s : Commands s (fst (move d s)).
Proof.
  destruct (String.eqb_spec (currentMode (vars s)) "manual") as [Hm | Hm].
  - rewrite (move_manual d s Hm). cbv zeta.
    eexists [_]. split; [reflexivity |]. split; [reflexivity |]. intros _. exact Hm.
  - rewrite (move_guard d s Hm). apply Quiet_Commands, Quiet_refl.
Qed.

Lemma switchMode_lastCommand m s :
  lastCommand (vars (fst (switchMode m s))) = lastCommand (vars s).
Proof. unfold switchMode, updateModeUI. destruct (String.eqb m "manual"); reflexivity. Qed.

Lemma switchMode_Quiet m s : Quiet s (fst (switchMode m s)).
Proof.
  apply (Quiet_one _ _ _ (switchMode_requests m s)); [reflexivity |].
  apply switchMode_lastCommand.
Qed.

Lemma updateSpeed_Quiet v s : Quiet s (fst (updateSpeed v s)).
Proof. apply (Quiet_one _ _ (GET (roverIP (vars s)) (Speed v))); reflexivity. Qed.

Lemma fetchStatus_Quiet s : Quiet s (fst (fetchStatus s)).
Proof. apply (Quiet_one _ _ (GET (roverIP (vars s)) Status)); reflexivity. Qed.

Lemma connectRover_Quiet s : Quiet s (connectRover s).
Proof.
  unfold connectRover. proj. destruct (negb _).
  - apply Quiet_silent; reflexivity.
  - apply (Quiet_one _ _ (GET (trim (ipInput (doc s))) Status)); reflexivity.
Qed.

Lemma updateConnectionStatus_Quiet c s : Quiet s (updateConnectionStatus c s).
Proof.
  unfold updateConnectionStatus. destruct c; [apply Quiet_silent; reflexivity |].
  destruct (_ <? _)%nat; apply Quiet_silent; reflexivity.
Qed.

Lemma showDistance_Quiet data s : Quiet s (showDistance data s).
Proof.
  unfold showDistance. destruct (distance data); try apply Quiet_refl.
  destruct (_ && _); apply Quiet_silent; reflexivity.
Qed.

Lemma syncMode_Quiet data s : Quiet s (syncMode data s).
Proof.
  unfold syncMode. destruct (mode data) as [m |]; [| apply Quiet_refl].
  destruct (_ && _); [apply switchMode_Quiet | apply Quiet_refl].
Qed.

Lemma showStatus_Quiet data b s :
  Quiet s (catch (showStatus data b s) (updateConnectionStatus false)).
Proof.
  showStatus_cases.
  - eapply Quiet_trans; [| apply updateConnectionStatus_Quiet].
    eapply Quiet_trans; [| apply syncMode_Quiet].
    eapply Quiet_trans; [| apply showDistance_Quiet].
    apply Quiet_silent; reflexivity.
  - eapply Quiet_trans; [| apply updateConnectionStatus_Quiet].
    destruct (stringifies (rssi data)); apply Quiet_silent; reflexivity.
Qed.

Lemma park_Quiet id ks s : Quiet s (park id ks s).
Proof. apply Quiet_silent; reflexivity. Qed.

Lemma emergencyStop_Quiet s : Quiet s (emergencyStop s).
Proof.
  rewrite emergencyStop_awaits.
  eapply Quiet_trans; [apply switchMode_Quiet | apply park_Quiet].
Qed.

Lemma onLoad_Quiet s : Quiet s (onLoad s).
Proof.
  unfold onLoad.
  match goal with
  | |- Quiet s (match localStorage (env ?t) !! _ with _ => _ end) =>
      assert (Ht : Quiet s t); [| set (t0 := t) in *; clearbody t0]
  end.
  { destruct (localStorage (env s) !! "roverIP") as [ip |]; [| apply Quiet_refl].
    destruct (truthy ip); [apply Quiet_silent; reflexivity | apply Quiet_refl]. }
  destruct (localStorage (env t0) !! "controlMode") as [m |]; [| exact Ht].
  destruct (_ && _); [| exact Ht].
  eapply Quiet_trans; [exact Ht | apply switchMode_Quiet].
Qed.

Lemma resume_Commands ks s : Commands s (resume ks s).
Proof.
  revert s. induction ks as [| k ks IH]; intros s;
    [apply Quiet_Commands, Quiet_refl |].
  cbn [resume]. destruct k; cbn [run_segment].
  - pose proof (move_Commands "stop" s) as Hc.
    pose proof (move_currentMode "stop" s) as Hm.
    destruct (move "stop" s) as [s' [id |]]; cbn [fst] in Hc, Hm.
    + apply (Commands_then _ _ _ Hc (Quiet_Commands _ _ (park_Quiet _ _ _))).
      reflexivity.
    + apply (Commands_then _ _ _ Hc (IH s')). apply resume_currentMode.
  - eapply Quiet_then; [| apply IH]. apply Quiet_silent; reflexivity.
Qed.

Lemma on_response_Commands k o s : Commands s (on_response k o s).
Proof.
  destruct k as [m | | |]; cbn [on_response].
  - destruct o; [apply Quiet_Commands, Quiet_refl |].
    destruct (String.eqb m "manual"); [apply move_Commands | apply Quiet_Commands, Quiet_refl].
  - apply Quiet_Commands.
    destruct o as [| [|] ?]; try apply updateConnectionStatus_Quiet; apply Quiet_refl.
  - apply Quiet_Commands, Quiet_refl.
  - apply Quiet_Commands.
    destruct o as [| [|] [data |]]; try apply updateConnectionStatus_Quiet;
      try apply Quiet_refl.
    destruct (battery data); try apply updateConnectionStatus_Quiet.
    apply showStatus_Quiet.
Qed.

Lemma deliver_Commands id o s : Commands s (deliver id o s).
Proof.
  destruct (pending (env s) !! id) as [[k ks] |] eqn:Hp.
  - rewrite (deliver_pending _ _ _ _ _ Hp).
    apply (Quiet_then _ (setPending (delete id (pending (env s))) s));
      [apply Quiet_silent; reflexivity |].
    eapply Commands_then; [apply on_response_Commands | apply resume_Commands |].
    apply resume_currentMode.
  - unfold deliver. rewrite Hp. apply Quiet_Commands, Quiet_refl.
Qed.

Lemma keydown_Commands key ctrl s : Commands s (keydown key ctrl s).
Proof.
  unfold keydown.
  destruct (String.eqb key "Escape"); [apply Quiet_Commands, emergencyStop_Quiet |].
  destruct (String.eqb (toLowerCase key) "m"); [apply Quiet_Commands, switchMode_Quiet |].
  destruct (_ && ctrl); [apply Quiet_Commands, switchMode_Quiet |].
  destruct (negb _); [apply Quiet_Commands, Quiet_refl |].
  repeat (destruct (_ || _); [apply move_Commands |]).
  destruct (String.eqb _ " "); [apply move_Commands | apply Quiet_Commands, Quiet_refl].
Qed.

Lemma step_Commands s e : Commands s (step s e).
Proof.
  destruct e; cbn [step].
  - apply Quiet_Commands, onLoad_Quiet.
  - apply Quiet_Commands, fetchStatus_Quiet.
  - apply Quiet_Commands, Quiet_silent; reflexivity.
  - apply Quiet_Commands, connectRover_Quiet.
  - apply Quiet_Commands, switchMode_Quiet.
  - apply move_Commands.
  - apply Quiet_Commands, updateSpeed_Quiet.
  - apply keydown_Commands.
  - apply deliver_Commands.
Qed.

Lemma sentBetween_app s s' l :
  requests (env s') = requests (env s) ++ l -> sentBetween s s' = l.
Proof.
  intros H. unfold sentBetween. rewrite H.
  rewrite skipn_app, skipn_all, Nat.sub_diag. reflexivity.
Qed.

(** X2.  In every state reached from the initial one, whatever the
    events and their order, [lastCommand] is the direction of the last
    [/action] request sent, and ["stop"] when none was sent. *)
Theorem lastCommand_is_last_sent
    (p : page) (store : gmap string string) (es : list event) :
  let s := run es (initial p store) in
  lastCommand (vars s) = lastGo "stop" (requests (env s)).
Proof.
  cbv zeta. unfold run.
  assert (H0 : lastCommand (vars (initial p store)) =
               lastGo "stop" (requests (env (initial p store)))) by reflexivity.
  revert H0. generalize (initial p store).
  induction es as [| e es IH]; intros s Hs; [exact Hs |].
  cbn [fold_left]. apply IH.
  destruct (step_Commands s e) as (l & R & C & _).
  now rewrite C, R, lastGo_app, Hs.
Qed.

(** X3.  No event, in no state, sends an [/action] request and leaves
    the mode other than manual: movement commands only go out in
    manual mode, whether they come from a button, a key, the answer to
    a mode switch or the emergency stop. *)
Theorem action_only_in_manual (s : state) (e : event) (r : request) :
  In r (sentBetween s (step s e)) -> isAction r = true ->
  currentMode (vars (step s e)) = "manual".
Proof.
  intros Hin Hr. destruct (step_Commands s e) as (l & R & _ & M).
  rewrite (sentBetween_app _ _ _ R) in Hin. apply M.
  apply existsb_exists. eauto.
Qed.

(** The answer to the mode request of an emergency stop. *)
Lemma action_only_in_manual_witness :
  let s := run [SwitchMode "autonomous"; Keydown "Escape" false] (initial blank ∅) in
  In (GET "192.168.1.100" (Action "stop"))
     (sentBetween s (step s (Response 1 (Resolved true None)))) /\
  currentMode (vars (step s (Response 1 (Resolved true None)))) = "manual".
Proof.
  cbv zeta.
  assert (Hin : In (GET "192.168.1.100" (Action "stop"))
     (sentBetween (run [SwitchMode "autonomous"; Keydown "Escape" false] (initial blank ∅))
        (step (run [SwitchMode "autonomous"; Keydown "Escape" false] (initial blank ∅))
              (Response 1 (Resolved true None))))).
  { vm_compute. left. reflexivity. }
  split; [exact Hin |].
  exact (action_only_in_manual _ _ _ Hin eq_refl).
Defined.

(** One press in manual mode. *)
Lemma move_press d t :
  currentMode (vars t) = "manual" ->
  let eff := if String.eqb (lastCommand (vars t)) d && negb (String.eqb d "stop")
             then "stop" else d in
  currentMode (vars (fst (move d t))) = "manual" /\
  roverIP (vars (fst (move d t))) = roverIP (vars t) /\
  lastCommand (vars (fst (move d t))) = eff /\
  requests (env (fst (move d t))) = requests (env t) ++ [GET (roverIP (vars t)) (Action eff)].
Proof.
  intros Hm. rewrite (move_manual d t Hm). cbv zeta. repeat split. exact Hm.
Qed.

(** X1.  In manual mode, pressing the same direction [d] again and
    again, from a last command other than [d], alternates: the
    requests sent are [d], stop, [d], stop, ..., and after [n + 1]
    presses the last command is [d] when [n] is even and ["stop"] when
    it is odd. *)
Theorem move_repeated (d : string) (s : state) (n : nat) :
  currentMode (vars s) = "manual" ->
  d <> "stop" ->
  lastCommand (vars s) <> d ->
  let after := Nat.iter (S n) (fun t => fst (move d t)) s in
  lastCommand (vars after) = (if Nat.even n then d else "stop") /\
  requests (env after) =
    requests (env s) ++
    map (fun go => GET (roverIP (vars s)) (Action go)) (presses d (S n)).
Proof.
  intros Hm Hd Hl. cbv zeta.
  apply String.eqb_neq in Hd. apply String.eqb_neq in Hl.
  assert (H : let a := Nat.iter (S n) (fun t => fst (move d t)) s in
              currentMode (vars a) = "manual" /\
              roverIP (vars a) = roverIP (vars s) /\
              lastCommand (vars a) = (if Nat.even n then d else "stop") /\
              requests (env a) =
                requests (env s) ++
                map (fun go => GET (roverIP (vars s)) (Action go)) (presses d (S n))).
  { induction n as [| n IH].
    - cbv zeta. rewrite Nat.iter_succ. cbn [Nat.iter nat_rect].
      destruct (move_press d s Hm) as (M & I & L & R).
      rewrite Hl in L, R. cbn [andb] in L, R.
      split; [exact M |]. split; [exact I |]. split; [exact L |].
      rewrite R. reflexivity.
    - cbv zeta in IH |- *. rewrite Nat.iter_succ.
      destruct IH as (M & I & L & R).
      destruct (move_press d _ M) as (M' & I' & L' & R').
      rewrite I in R'. rewrite I' , I. rewrite L in L', R'.
      split; [exact M' |]. split; [reflexivity |].
      rewrite Nat.even_succ. unfold Nat.odd.
      rewrite R', R, <- app_assoc, L'.
      change (presses d (S (S n))) with
        (presses d (S n) ++ [if Nat.even (S n) then d else "stop"]).
      rewrite map_app, Nat.even_succ. unfold Nat.odd. cbn [map].
      destruct (Nat.even n); cbn [negb].
      + rewrite String.eqb_refl, Hd. cbn [negb andb]. split; reflexivity.
      + assert (E : String.eqb "stop" d = false).
        { rewrite String.eqb_sym. exact Hd. }
        rewrite E. cbn [andb]. split; reflexivity. }
  cbv zeta in H. destruct H as (_ & _ & L & R). split; assumption.
Qed.

(** Five presses of [forward] from the initial state. *)
Lemma move_repeated_witness :
  let after := Nat.iter 5 (fun t => fst (move "forward" t)) (initial blank ∅) in
  lastCommand (vars after) = "forward" /\
  map target (requests (env after)) =
    [Action "forward"; Action "stop"; Action "forward"; Action "stop"; Action "forward"].
Proof.
  cbv zeta.
  destruct (move_repeated "forward" (initial blank ∅) 4) as [L R];
    try reflexivity; try discriminate.
  split; [exact L |]. rewrite R. reflexivity.
Defined.

(** *** Persistence and reload *)

Lemma switchMode_store m s :
  localStorage (env (fst (switchMode m s))) = <["controlMode" := m]> (localStorage (env s)).
Proof. unfold switchMode, updateModeUI. destruct (String.eqb m "manual"); reflexivity. Qed.

Lemma switchMode_ipInput m s :
  ipInput (doc (fst (switchMode m s))) = ipInput (doc s).
Proof. unfold switchMode, updateModeUI. destruct (String.eqb m "manual"); reflexivity. Qed.

Lemma onLoad_split s :
  onLoad s =
    match localStorage (env (loadAddress s)) !! "controlMode" with
    | Some savedMode =>
        if truthy savedMode && String.eqb savedMode "autonomous"
        then fst (switchMode savedMode (loadAddress s)) else loadAddress s
    | None => loadAddress s
    end.
Proof. reflexivity. Qed.

Lemma loadAddress_env s : env (loadAddress s) = env s.
Proof.
  unfold loadAddress. destruct (_ !! _) as [ip |]; [| reflexivity].
  destruct (truthy ip); reflexivity.
Qed.

Lemma loadAddress_currentMode s :
  currentMode (vars (loadAddress s)) = currentMode (vars s).
Proof.
  unfold loadAddress. destruct (_ !! _) as [ip |]; [| reflexivity].
  destruct (truthy ip); reflexivity.
Qed.

(** What a start-up does to the mode, by what the store holds. *)
Lemma onLoad_mode s :
  localStorage (env s) !! "controlMode" = Some "autonomous" ->
  currentMode (vars (onLoad s)) = "autonomous" /\
  map target (requests (env (onLoad s))) =
    map target (requests (env s)) ++ [Mode "autonomous"].
Proof.
  intros H. rewrite onLoad_split, loadAddress_env, H. cbn [truthy andb String.eqb Ascii.eqb Bool.eqb].
  rewrite switchMode_currentMode, switchMode_requests, loadAddress_env, map_app.
  split; reflexivity.
Qed.

Lemma onLoad_no_mode s :
  localStorage (env s) !! "controlMode" <> Some "autonomous" ->
  currentMode (vars (onLoad s)) = currentMode (vars s) /\
  requests (env (onLoad s)) = requests (env s).
Proof.
  intros H. rewrite onLoad_split, loadAddress_env.
  destruct (localStorage (env s) !! "controlMode") as [m |].
  - destruct (String.eqb_spec m "autonomous") as [-> | _]; [congruence |].
    rewrite andb_false_r, loadAddress_currentMode, loadAddress_env. split; reflexivity.
  - rewrite loadAddress_currentMode, loadAddress_env. split; reflexivity.
Qed.

(** X4.  The mode round trip through the store.  After
    [switchMode(m)], for any string [m], a page that starts up on what
    the store then holds comes up autonomous, and sends the mode
    request again, exactly when [m] is ["autonomous"]; for every other
    [m] -- ["manual"], or whatever a telemetry body made the mode -- it
    comes up manual and sends nothing. *)
Theorem mode_survives_reload (m : string) (s : state) (p : page) :
  let store := localStorage (env (fst (switchMode m s))) in
  let r := onLoad (initial p store) in
  currentMode (vars r) = (if String.eqb m "autonomous" then "autonomous" else "manual") /\
  map target (requests (env r)) =
    (if String.eqb m "autonomous" then [Mode "autonomous"] else []).
Proof.
  cbv zeta. rewrite switchMode_store.
  destruct (String.eqb_spec m "autonomous") as [-> | Hm].
  - apply (onLoad_mode (initial p _)). cbn. apply lookup_insert_eq.
  - destruct (onLoad_no_mode (initial p (<["controlMode" := m]> (localStorage (env s)))))
      as [Hc Hr].
    + cbn. rewrite lookup_insert_eq. congruence.
    + rewrite Hc, Hr. split; reflexivity.
Qed.

Lemma connectRover_store s :
  truthy (trim (ipInput (doc s))) = true ->
  localStorage (env (connectRover s)) =
    <["roverIP" := trim (ipInput (doc s))]> (localStorage (env s)).
Proof. intros H. unfold connectRover. proj. rewrite H. reflexivity. Qed.

Lemma connectRover_blank_store s :
  truthy (trim (ipInput (doc s))) = false ->
  localStorage (env (connectRover s)) = localStorage (env s).
Proof. intros H. unfold connectRover. proj. rewrite H. reflexivity. Qed.

Lemma onLoad_address s a :
  localStorage (env s) !! "roverIP" = Some a -> truthy a = true ->
  roverIP (vars (onLoad s)) = a /\ ipInput (doc (onLoad s)) = a.
Proof.
  intros Ha Ht. rewrite onLoad_split.
  assert (E : loadAddress s = setIpInput a (setRoverIP a s)).
  { unfold loadAddress. now rewrite Ha, Ht. }
  destruct (_ !! "controlMode") as [m |]; [destruct (_ && _) |];
    rewrite ?switchMode_roverIP, ?switchMode_ipInput, E; split; reflexivity.
Qed.

(** X5.  The address round trip through the store.  After a connect
    with an address that does not trim to nothing, a page that starts
    up on what the store then holds has the trimmed address as its
    active address and in its address field.  A connect with a blank
    address leaves the store as it was, so that the start-up still
    finds the address of the last good connect. *)
Theorem address_survives_reload (s t : state) (p : page) :
  truthy (trim (ipInput (doc s))) = true ->
  truthy (trim (ipInput (doc t))) = false ->
  (let r := onLoad (initial p (localStorage (env (connectRover s)))) in
   roverIP (vars r) = trim (ipInput (doc s)) /\
   ipInput (doc r) = trim (ipInput (doc s))) /\
  onLoad (initial p (localStorage (env (connectRover t)))) =
    onLoad (initial p (localStorage (env t))).
Proof.
  intros Hs Ht. split.
  - cbv zeta. rewrite (connectRover_store s Hs).
    apply onLoad_address; [| exact Hs]. cbn. apply lookup_insert_eq.
  - now rewrite (connectRover_blank_store t Ht).
Qed.

(** A connect to [" 10.0.0.5 "], then one with blanks, then a reload. *)
Lemma address_survives_reload_witness :
  let s := run [Typed " 10.0.0.5 "] (initial blank ∅) in
  let t := run [Connect; Typed "   "] s in
  roverIP (vars (onLoad (initial blank (localStorage (env (connectRover s)))))) = "10.0.0.5" /\
  roverIP (vars (connectRover t)) = "" /\
  roverIP (vars (onLoad (initial blank (localStorage (env (connectRover t)))))) = "10.0.0.5".
Proof.
  cbv zeta.
  match goal with
  | |- roverIP (vars (onLoad (initial blank (localStorage (env (connectRover ?s)))))) = _ /\
       _ /\ roverIP (vars (onLoad (initial blank (localStorage (env (connectRover ?t)))))) = _ =>
      destruct (address_survives_reload s t blank) as [[Hr _] Hb]
  end.
  - vm_compute. reflexivity.
  - vm_compute. reflexivity.
  - split; [rewrite Hr; vm_compute; reflexivity |].
    split; [vm_compute; reflexivity |].
    rewrite Hb. vm_compute. reflexivity.
Defined.

(** *** The keyboard *)

Lemma lower_idempotent c : lower (lower c) = lower c.
Proof. destruct c as [[] [] [] [] [] [] [] []]; reflexivity. Qed.

Lemma toLowerCase_idempotent k : toLowerCase (toLowerCase k) = toLowerCase k.
Proof.
  induction k as [| c k IH]; [reflexivity |].
  cbn [toLowerCase]. now rewrite lower_idempotent, IH.
Qed.

Lemma lower_not_E c : Ascii.eqb (lower c) "E" = false.
Proof. destruct c as [[] [] [] [] [] [] [] []]; reflexivity. Qed.

Lemma toLowerCase_not_Escape k : String.eqb (toLowerCase k) "Escape" = false.
Proof.
  destruct k as [| c k]; [reflexivity |].
  cbn [toLowerCase String.eqb]. now rewrite lower_not_E.
Qed.

(** X6.  But for the key named ["Escape"], which is compared as it
    is, the keyboard handler does not tell upper from lower case: a
    key event does what the event with the lower-cased key name does,
    in every state and with or without Ctrl. *)
Theorem keydown_case_insensitive (key : string) (ctrlKey : bool) (s : state) :
  key <> "Escape" ->
  keydown key ctrlKey s = keydown (toLowerCase key) ctrlKey s.
Proof.
  intros H. apply String.eqb_neq in H. unfold keydown.
  rewrite H, toLowerCase_not_Escape, toLowerCase_idempotent. reflexivity.
Qed.

(** Shift+W in manual mode. *)
Lemma keydown_case_insensitive_witness :
  let s := initial blank ∅ in
  keydown "W" false s = keydown "w" false s /\
  map target (requests (env (keydown "W" false s))) = [Action "forward"].
Proof.
  cbv zeta. split.
  - apply (keydown_case_insensitive "W" false). discriminate.
  - vm_compute. reflexivity.
Defined.

(** The guard of the keyboard handler repeats the one of [move]. *)
Lemma guarded_move d s :
  (if negb (String.eqb (currentMode (vars s)) "manual") then s else fst (move d s)) =
  fst (move d s).
Proof.
  destruct (String.eqb_spec (currentMode (vars s)) "manual") as [E | E]; cbn [negb].
  - reflexivity.
  - symmetry. now apply move_guard.
Qed.

Ltac key_is k l :=
  unfold keydown; change (toLowerCase k) with l;
  cbn [String.eqb Ascii.eqb Bool.eqb andb orb];
  try apply guarded_move.

(** X7.  The movement keys do exactly what the buttons do, in every
    state and mode: W and the up arrow are [move('forward')], S and
    the down arrow [move('backward')], D and the right arrow
    [move('right')], the space bar [move('stop')], with or without
    Ctrl; the left arrow is [move('left')] with or without Ctrl, the
    key A only without: with Ctrl it is [switchMode('autonomous')]. *)
Theorem keydown_bindings (ctrlKey : bool) (s : state) :
  (keydown "w" ctrlKey s = fst (move "forward" s) /\
   keydown "ArrowUp" ctrlKey s = fst (move "forward" s)) /\
  (keydown "s" ctrlKey s = fst (move "backward" s) /\
   keydown "ArrowDown" ctrlKey s = fst (move "backward" s)) /\
  (keydown "d" ctrlKey s = fst (move "right" s) /\
   keydown "ArrowRight" ctrlKey s = fst (move "right" s)) /\
  keydown " " ctrlKey s = fst (move "stop" s) /\
  keydown "ArrowLeft" ctrlKey s = fst (move "left" s) /\
  keydown "a" false s = fst (move "left" s) /\
  keydown "a" true s = fst (switchMode "autonomous" s).
Proof.
  repeat split.
  - key_is "w" "w".
  - key_is "ArrowUp" "arrowup".
  - key_is "s" "s".
  - key_is "ArrowDown" "arrowdown".
  - key_is "d" "d".
  - key_is "ArrowRight" "arrowright".
  - key_is " " " ".
  - key_is "ArrowLeft" "arrowleft".
  - key_is "a" "a".
Qed.

(** *** A poll that goes through *)

Lemma updateConnectionStatus_env c s : env (updateConnectionStatus c s) = env s.
Proof.
  unfold updateConnectionStatus. destruct c; [reflexivity |].
  destruct (_ <? _)%nat; reflexivity.
Qed.
















(** X19.  A poll that stops half-way.  When the body of a 2xx answer
    has a numeric battery but a signal strength or a command with no
    conversion to a string (an object whose own [toString] is no
    function), the battery is shown, the signal strength too when it
    is the command that has no conversion, and there the block ends:
    one more failure is counted, the action, the distance and its
    colour stay as they were, the mode is not reconciled and nothing
    is sent.  The signal strength is blanked if that failure is the
    fourth or a later one. *)
Theorem poll_stops_at_conversion (s : state) (id : nat) (data : status_body) (b : Q) :
  pending (env s) !! id = Some (InFetchStatus, []) ->
  battery data = JNum b ->
  displayable data = false ->
  let s' := deliver id (Resolved true (Some data)) s in
  failCount (vars s') = S (failCount (vars s)) /\
  telemetryShown s' =
    (Some (Volts b), textContent (doc s) !! actionEl,
     textContent (doc s) !! distanceValue, textContent (doc s) !! distanceInfo,
     distanceColorShown s) /\
  signalShown s' =
    (if (3 <? S (failCount (vars s)))%nat then Some (Lit "Signal: --")
     else if stringifies (rssi data) then Some (SignalDbm (rssi data))
     else signalShown s) /\
  currentMode (vars s') = currentMode (vars s) /\
  requests (env s') = requests (env s).
Proof.
  intros Hp Hb Hd. cbv zeta. rewrite (deliver_status_ok _ _ _ _ Hp Hb).
  rewrite (showStatus_throws _ _ _ Hd). cbn [catch].
  rewrite updateConnectionStatus_false_failCount, updateConnectionStatus_false_telemetry,
    updateConnectionStatus_false_signal, updateConnectionStatus_currentMode,
    updateConnectionStatus_env.
  destruct (stringifies (rssi data));
    unfold telemetryShown, distanceColorShown, signalShown; proj;
    repeat (rewrite lookup_insert_eq || rewrite lookup_insert_ne by done);
    repeat split.
Qed.

(** A body whose signal strength is an object with [toString: 0],
    as the first answer. *)
Lemma poll_stops_at_conversion_witness :
  let data := {| battery := JNum 7.4; rssi := JObject None; command := JStr "forward";
                 distance := DistNum 20; mode := Some "autonomous" |} in
  let s' := deliver 0 (Resolved true (Some data)) (run [Tick] (initial blank ∅)) in
  failCount (vars s') = 1 /\
  telemetryShown s' = (Some (Volts 7.4), None, None, None, None) /\
  signalShown s' = None /\
  currentMode (vars s') = "manual".
Proof.
  cbv zeta.
  destruct (poll_stops_at_conversion (run [Tick] (initial blank ∅)) 0
              {| battery := JNum 7.4; rssi := JObject None; command := JStr "forward";
                 distance := DistNum 20; mode := Some "autonomous" |} 7.4)
    as (Hf & Ht & Hs & Hm & _);
    [vm_compute; reflexivity | reflexivity | reflexivity |].
  rewrite Hf, Ht, Hs, Hm. repeat split.
Defined.

(** *** The status indicator *)

Lemma indicator_frame s s' :
  connectivity s' = connectivity s -> indicator_ok s -> indicator_ok s'.
Proof.
  unfold connectivity, indicator_ok. intros H. injection H as Hf Ht _.
  now rewrite Hf, Ht.
Qed.

Lemma updateConnectionStatus_indicator c s :
  indicator_ok s -> indicator_ok (updateConnectionStatus c s).
Proof.
  intros [Hc Hd]. destruct c.
  - unfold indicator_ok, updateConnectionStatus. proj.
    rewrite !lookup_insert_eq. split; [lia | discriminate].
  - destruct (Nat.lt_ge_cases (failCount (vars s)) 3) as [Hlt | Hge].
    + rewrite (updateConnectionStatus_false_low s Hlt).
      unfold indicator_ok. proj. split; [lia |].
      intros H. specialize (Hd H). lia.
    + rewrite (updateConnectionStatus_false_high s Hge).
      unfold indicator_ok. proj.
      rewrite lookup_insert_ne, lookup_insert_eq by done.
      split; [discriminate | lia].
Qed.

Lemma switchMode_connectivity m s :
  connectivity (fst (switchMode m s)) = connectivity s.
Proof.
  unfold connectivity, switchMode, updateModeUI.
  destruct (String.eqb m "manual"); proj; now rewrite !lookup_insert_ne.
Qed.

Lemma park_connectivity id ks s : connectivity (park id ks s) = connectivity s.
Proof. reflexivity. Qed.

Lemma emergencyStop_connectivity s : connectivity (emergencyStop s) = connectivity s.
Proof. now rewrite emergencyStop_awaits, park_connectivity, switchMode_connectivity. Qed.

Lemma loadAddress_connectivity s : connectivity (loadAddress s) = connectivity s.
Proof.
  unfold loadAddress. destruct (_ !! _) as [ip |]; [| reflexivity].
  destruct (truthy ip); reflexivity.
Qed.

Lemma onLoad_connectivity s : connectivity (onLoad s) = connectivity s.
Proof.
  rewrite onLoad_split.
  destruct (_ !! "controlMode") as [m |]; [destruct (_ && _) |];
    rewrite ?switchMode_connectivity; apply loadAddress_connectivity.
Qed.

Lemma keydown_connectivity key ctrl s : connectivity (keydown key ctrl s) = connectivity s.
Proof.
  unfold keydown.
  destruct (String.eqb key "Escape"); [apply emergencyStop_connectivity |].
  destruct (String.eqb (toLowerCase key) "m"); [apply switchMode_connectivity |].
  destruct (_ && ctrl); [apply switchMode_connectivity |].
  destruct (negb _); [reflexivity |].
  repeat (destruct (_ || _); [apply move_connectivity |]).
  destruct (String.eqb _ " "); [apply move_connectivity | reflexivity].
Qed.

Lemma connectRover_indicator s : indicator_ok s -> indicator_ok (connectRover s).
Proof.
  intros H. unfold connectRover. proj. destruct (negb _).
  - revert H. apply indicator_frame. reflexivity.
  - unfold indicator_ok, fetchStatus. proj.
    rewrite lookup_insert_eq. split; discriminate.
Qed.

Lemma showStatus_indicator data b s :
  indicator_ok s ->
  indicator_ok (catch (showStatus data b s) (updateConnectionStatus false)).
Proof.
  intros H. showStatus_cases.
  - unfold indicator_ok, updateConnectionStatus. proj.
    rewrite !lookup_insert_eq. split; [lia | discriminate].
  - apply updateConnectionStatus_indicator. revert H. apply indicator_frame.
    unfold connectivity.
    destruct (stringifies (rssi data)); proj; now rewrite !lookup_insert_ne.
Qed.

Lemma on_response_indicator k o s :
  indicator_ok s -> indicator_ok (on_response k o s).
Proof.
  intros H. destruct k as [m | | |]; cbn [on_response].
  - destruct o; [exact H |].
    destruct (String.eqb m "manual"); [| exact H].
    revert H. apply indicator_frame, move_connectivity.
  - destruct o as [| [|] ?]; try exact H; now apply updateConnectionStatus_indicator.
  - exact H.
  - destruct o as [| [|] [data |]]; try exact H;
      try now apply updateConnectionStatus_indicator.
    destruct (battery data); try now apply updateConnectionStatus_indicator.
    now apply showStatus_indicator.
Qed.

Lemma deliver_indicator id o s : indicator_ok s -> indicator_ok (deliver id o s).
Proof.
  intros H. destruct (pending (env s) !! id) as [[k ks] |] eqn:Hp.
  - rewrite (deliver_pending _ _ _ _ _ Hp).
    apply (indicator_frame _ _ (resume_connectivity _ _)).
    apply on_response_indicator. revert H. apply indicator_frame. reflexivity.
  - unfold deliver. now rewrite Hp.
Qed.

Lemma updateSpeed_connectivity v s :
  connectivity (fst (updateSpeed v s)) = connectivity s.
Proof. unfold connectivity, updateSpeed. proj. now rewrite lookup_insert_ne. Qed.

Lemma step_indicator s e : indicator_ok s -> indicator_ok (step s e).
Proof.
  intros H. destruct e; cbn [step].
  - revert H. apply indicator_frame, onLoad_connectivity.
  - revert H. apply indicator_frame. reflexivity.
  - revert H. apply indicator_frame. reflexivity.
  - now apply connectRover_indicator.
  - revert H. apply indicator_frame, switchMode_connectivity.
  - revert H. apply indicator_frame, move_connectivity.
  - revert H. apply indicator_frame, updateSpeed_connectivity.
  - revert H. apply indicator_frame, keydown_connectivity.
  - now apply deliver_indicator.
Qed.

(** X11.  The status indicator never contradicts the failure count.
    On a page that does not start with the disconnected text, in every
    state reached from the initial one, whatever the events: when the
    indicator shows the connection, at most 3 failures are counted,
    and when it shows the disconnection, more than 3 are. *)
Theorem indicator_follows_failures
    (p : page) (store : gmap string string) (es : list event) :
  textContent p !! statusEl <> Some (Lit "⚠️ Disconnected") ->
  indicator_ok (run es (initial p store)).
Proof.
  intros Hp. unfold run.
  assert (H0 : indicator_ok (initial p store)).
  { unfold indicator_ok. cbn. split; [lia | congruence]. }
  revert H0. generalize (initial p store).
  induction es as [| e es IH]; intros s Hs; [exact Hs |].
  cbn [fold_left]. apply IH. now apply step_indicator.
Qed.

(** Four polls that fail, then one that goes through. *)
Lemma indicator_follows_failures_witness :
  let data := {| battery := JNum 7.4; rssi := JNum (-60); command := JStr "stop";
                 distance := DistNull; mode := None |} in
  indicator_ok (run [Tick; Response 0 Rejected; Tick; Response 1 Rejected;
                     Tick; Response 2 Rejected; Tick; Response 3 Rejected;
                     Tick; Response 4 (Resolved true (Some data))]
                    (initial blank ∅)).
Proof.
  cbv zeta. apply indicator_follows_failures. vm_compute. discriminate.
Defined.

Lemma updateConnectionStatus_false_status s :
  textContent (doc (updateConnectionStatus false s)) !! statusEl =
    if (3 <? S (failCount (vars s)))%nat
    then Some (Lit "⚠️ Disconnected")
    else textContent (doc s) !! statusEl.
Proof.
  unfold updateConnectionStatus. proj. destruct (_ <? _)%nat; [| reflexivity].
  proj. now rewrite lookup_insert_ne, lookup_insert_eq by done.
Qed.

(** X12.  A connect does not reset the failure count.  After a
    connect with a good address the indicator shows the attempt, with
    the failures counted before; when the poll it sent then fails, the
    indicator shows the disconnection at once if 3 or more failures
    were counted before the connect, and keeps showing the attempt
    otherwise. *)
Theorem connect_keeps_failures (s : state) (o : outcome) :
  truthy (trim (ipInput (doc s))) = true ->
  counts_as_failure o = true ->
  let c := connectRover s in
  let s' := deliver (length (requests (env s))) o c in
  (failCount (vars c) = failCount (vars s) /\
   textContent (doc c) !! statusEl = Some (Lit "🔄 Connecting...")) /\
  failCount (vars s') = S (failCount (vars s)) /\
  textContent (doc s') !! statusEl =
    (if (3 <=? failCount (vars s))%nat
     then Some (Lit "⚠️ Disconnected")
     else Some (Lit "🔄 Connecting...")).
Proof.
  intros Ht Ho. cbv zeta.
  assert (Hp : pending (env (connectRover s)) !! length (requests (env s)) =
               Some (InFetchStatus, [])).
  { unfold connectRover, fetchStatus. proj. rewrite Ht. cbn [negb]. proj.
    apply lookup_insert_eq. }
  assert (Hf : failCount (vars (connectRover s)) = failCount (vars s)).
  { unfold connectRover. proj. rewrite Ht. reflexivity. }
  assert (Hs : textContent (doc (connectRover s)) !! statusEl =
               Some (Lit "🔄 Connecting...")).
  { apply (connectRover_address s Ht). }
  split; [split; assumption |].
  rewrite (deliver_status_failure _ o _ Hp Ho).
  rewrite updateConnectionStatus_false_failCount, updateConnectionStatus_false_status.
  proj. rewrite Hf, Hs. split; [reflexivity |].
  change (3 <? S (failCount (vars s)))%nat with (3 <=? failCount (vars s))%nat.
  reflexivity.
Qed.

(** Disconnected after four failed polls, then a connect to
    ["10.0.0.5"] whose poll fails. *)
Lemma connect_keeps_failures_witness :
  let s := run [Typed "10.0.0.5"] (Nat.iter 4 failedPoll (initial blank ∅)) in
  textContent (doc (connectRover s)) !! statusEl = Some (Lit "🔄 Connecting...") /\
  textContent (doc (deliver 4 Rejected (connectRover s))) !! statusEl =
    Some (Lit "⚠️ Disconnected").
Proof.
  cbv zeta.
  match goal with
  | |- textContent (doc (connectRover ?s)) !! _ = _ /\ _ =>
      destruct (connect_keeps_failures s Rejected) as ([_ Hc] & _ & Hd);
        [vm_compute; reflexivity | reflexivity |];
      assert (E : length (requests (env s)) = 4) by (vm_compute; reflexivity);
      assert (F : failCount (vars s) = 4) by (vm_compute; reflexivity)
  end.
  rewrite E, F in Hd. split; [exact Hc | exact Hd].
Defined.

(** *** The run of failures *)

Lemma move_signal d s : signalShown (fst (move d s)) = signalShown s.
Proof.
  unfold move. destruct (negb _); [reflexivity |].
  unfold signalShown. proj. now rewrite lookup_insert_ne.
Qed.

Lemma resume_signal ks s : signalShown (resume ks s) = signalShown s.
Proof.
  revert s. induction ks as [| k ks IH]; intros s; [reflexivity |].
  cbn [resume]. destruct k; cbn [run_segment].
  - pose proof (move_signal "stop" s) as Hm.
    destruct (move "stop" s) as [s' [id |]]; cbn [fst] in Hm.
    + rewrite <- Hm. reflexivity.
    + now rewrite IH.
  - rewrite IH. reflexivity.
Qed.

Lemma switchMode_signal m s : signalShown (fst (switchMode m s)) = signalShown s.
Proof.
  unfold signalShown, switchMode, updateModeUI.
  destruct (String.eqb m "manual"); proj; now rewrite !lookup_insert_ne.
Qed.

Lemma park_signal id ks s : signalShown (park id ks s) = signalShown s.
Proof. reflexivity. Qed.

Lemma emergencyStop_signal s : signalShown (emergencyStop s) = signalShown s.
Proof. now rewrite emergencyStop_awaits, park_signal, switchMode_signal. Qed.

Lemma onLoad_signal s : signalShown (onLoad s) = signalShown s.
Proof.
  assert (Hl : signalShown (loadAddress s) = signalShown s).
  { unfold loadAddress. destruct (_ !! _) as [ip |]; [| reflexivity].
    destruct (truthy ip); reflexivity. }
  rewrite onLoad_split.
  destruct (_ !! "controlMode") as [m |]; [destruct (_ && _) |];
    rewrite ?switchMode_signal; exact Hl.
Qed.

Lemma keydown_signal key ctrl s : signalShown (keydown key ctrl s) = signalShown s.
Proof.
  unfold keydown.
  destruct (String.eqb key "Escape"); [apply emergencyStop_signal |].
  destruct (String.eqb (toLowerCase key) "m"); [apply switchMode_signal |].
  destruct (_ && ctrl); [apply switchMode_signal |].
  destruct (negb _); [reflexivity |].
  repeat (destruct (_ || _); [apply move_signal |]).
  destruct (String.eqb _ " "); [apply move_signal | reflexivity].
Qed.

Lemma updateSpeed_signal v s : signalShown (fst (updateSpeed v s)) = signalShown s.
Proof. unfold signalShown, updateSpeed. proj. now rewrite lookup_insert_ne. Qed.

Lemma updateConnectionStatus_false_class s :
  className (doc (updateConnectionStatus false s)) !! statusEl =
    if (3 <? S (failCount (vars s)))%nat
    then Some "status disconnected"
    else className (doc s) !! statusEl.
Proof.
  unfold updateConnectionStatus. proj. destruct (_ <? _)%nat; [| reflexivity].
  proj. now rewrite lookup_insert_eq.
Qed.

(** An event that is neutral leaves the failure count, the indicator
    and the signal strength alone. *)
Lemma step_neutral s e :
  verdictOf s e = Neutral ->
  connectivity (step s e) = connectivity s /\ signalShown (step s e) = signalShown s.
Proof.
  intros H. destruct e; cbn [step verdictOf] in *.
  - split; [apply onLoad_connectivity | apply onLoad_signal].
  - split; reflexivity.
  - split; reflexivity.
  - unfold connectRover. proj.
    destruct (truthy (trim (ipInput (doc s)))); [discriminate H |].
    split; reflexivity.
  - split; [apply switchMode_connectivity | apply switchMode_signal].
  - split; [apply move_connectivity | apply move_signal].
  - split; [apply updateSpeed_connectivity | apply updateSpeed_signal].
  - split; [apply keydown_connectivity | apply keydown_signal].
  - destruct (pending (env s) !! id) as [[k ks] |] eqn:Hp;
      [| unfold deliver; rewrite Hp; split; reflexivity].
    rewrite (deliver_pending _ _ _ _ _ Hp), resume_connectivity, resume_signal.
    destruct k as [m | | |]; cbn [on_response].
    + destruct o; [split; reflexivity |].
      destruct (String.eqb m "manual"); [| split; reflexivity].
      rewrite move_connectivity, move_signal. split; reflexivity.
    + destruct o as [| [|] ?]; try discriminate H. split; reflexivity.
    + split; reflexivity.
    + destruct o as [| [|] [data |]]; try discriminate H; try (split; reflexivity).
      cbn [counted_success counted_failure] in H.
      destruct (battery data); try discriminate H.
      destruct (displayable data); discriminate H.
Qed.

(** An event that is a failure is an answer that ends in one of the
    two [catch] blocks that count: from a state with the same
    connectivity, and the same signal strength unless the body got as
    far as a new one. *)
Lemma step_failure s e :
  verdictOf s e = Failure ->
  exists t,
    connectivity (step s e) = connectivity (updateConnectionStatus false t) /\
    signalShown (step s e) = signalShown (updateConnectionStatus false t) /\
    connectivity t = connectivity s /\
    (signalShown t = signalShown s \/ exists v, signalShown t = Some (SignalDbm v)).
Proof.
  intros H. destruct e; cbn [step verdictOf] in *; try discriminate H.
  - destruct (truthy _); discriminate H.
  - destruct (pending (env s) !! id) as [[k ks] |] eqn:Hp; [| discriminate H].
    rewrite (deliver_pending _ _ _ _ _ Hp), resume_connectivity, resume_signal.
    set (s0 := setPending (delete id (pending (env s))) s).
    assert (H0 : connectivity s0 = connectivity s /\ signalShown s0 = signalShown s)
      by (split; reflexivity).
    destruct H0 as [Hc Hs]. clearbody s0.
    destruct k as [m | | |]; cbn [on_response]; try discriminate H.
    + destruct o as [| [|] ?]; try discriminate H. exists s0. auto.
    + destruct o as [| [|] [data |]]; try discriminate H; try (exists s0; now auto).
      cbn [counted_success counted_failure] in H.
      destruct (battery data) as [| | | b | |]; try (exists s0; now auto).
      destruct (displayable data) eqn:Hd; [discriminate H |].
      rewrite (showStatus_throws _ _ _ Hd). cbn [catch].
      eexists. split; [reflexivity |]. split; [reflexivity |].
      destruct (stringifies (rssi data)).
      * split.
        -- rewrite <- Hc. unfold connectivity. proj. now rewrite !lookup_insert_ne.
        -- right. exists (rssi data). unfold signalShown. proj.
           now rewrite lookup_insert_eq.
      * split.
        -- rewrite <- Hc. unfold connectivity. proj. now rewrite !lookup_insert_ne.
        -- left. rewrite <- Hs. unfold signalShown. proj.
           now rewrite lookup_insert_ne.
Qed.

(** The count and the display along a run of events with no counted
    success and no connect, from [c] failures on. *)
Lemma failures_run (sig : option text) (es : list event) :
  forall (s : state) (c n : nat),
  failCount (vars s) = c ->
  textContent (doc s) !! statusEl =
    Some (Lit (if (c <=? 3)%nat then "✅ Connected" else "⚠️ Disconnected")) ->
  (if (c <=? 3)%nat
   then signalShown s = sig \/ exists v, signalShown s = Some (SignalDbm v)
   else className (doc s) !! statusEl = Some "status disconnected" /\
        signalShown s = Some (Lit "Signal: --")) ->
  failuresIn s es = Some n ->
  failCount (vars (run es s)) = c + n /\
  textContent (doc (run es s)) !! statusEl =
    Some (Lit (if (c + n <=? 3)%nat then "✅ Connected" else "⚠️ Disconnected")) /\
  (if (c + n <=? 3)%nat
   then signalShown (run es s) = sig \/ exists v, signalShown (run es s) = Some (SignalDbm v)
   else className (doc (run es s)) !! statusEl = Some "status disconnected" /\
        signalShown (run es s) = Some (Lit "Signal: --")).
Proof.
  induction es as [| e es IH]; intros s c n Hf Ht Hs Hn.
  - injection Hn as <-. rewrite Nat.add_0_r. auto.
  - cbn [failuresIn] in Hn. unfold run. cbn [fold_left]. fold (run es (step s e)).
    destruct (verdictOf s e) eqn:Hv.
    + destruct (failuresIn (step s e) es) as [n' |] eqn:Hn'; [| discriminate Hn].
      injection Hn as <-.
      destruct (step_failure s e Hv) as (t & Hc1 & Hs1 & Hc0 & Hs0).
      unfold connectivity in Hc1, Hc0.
      rewrite updateConnectionStatus_false_failCount, updateConnectionStatus_false_status,
        updateConnectionStatus_false_class in Hc1.
      rewrite updateConnectionStatus_false_signal in Hs1.
      injection Hc0 as Hc0 Ht0 Hk0. injection Hc1 as Hc1 Ht1 Hk1.
      rewrite Hc0, Hf in Hc1, Ht1, Hk1, Hs1. rewrite Ht0 in Ht1. rewrite Hk0 in Hk1.
      replace (c + S n') with (S c + n') by lia.
      apply IH; [exact Hc1 | | | exact Hn'].
      * rewrite Ht1, Ht. change (3 <? S c)%nat with (3 <=? c)%nat.
        destruct (Nat.leb_spec 3 c), (Nat.leb_spec c 3), (Nat.leb_spec (S c) 3);
          try lia; reflexivity.
      * rewrite Hk1, Hs1. change (3 <? S c)%nat with (3 <=? c)%nat.
        destruct (Nat.leb_spec 3 c), (Nat.leb_spec c 3), (Nat.leb_spec (S c) 3);
          try lia; auto.
        destruct Hs0 as [-> | Hv0]; auto.
    + destruct (failuresIn (step s e) es) as [n' |] eqn:Hn'; [| discriminate Hn].
      injection Hn as <-.
      destruct (step_neutral s e Hv) as [Hc1 Hs1].
      unfold connectivity in Hc1. injection Hc1 as Hc1 Ht1 Hk1.
      apply IH; [now rewrite Hc1 | now rewrite Ht1 | | exact Hn'].
      rewrite Hk1, Hs1. exact Hs.
    + discriminate Hn.
Qed.

(** C5, as stated, fails on what a failed request and a run of them
    are.  From the connected state with no failure counted, four
    polls in a row that the rover answers with a status outside 2xx
    count for nothing: the indicator stays connected.  And three
    failed polls, a speed change that succeeds, then one more failed
    poll show the disconnection and blank the signal strength: the
    success in between did not end the run. *)
Lemma failures_not_all_counted :
  let data := {| battery := JNum 7.4; rssi := JNum (-60); command := JStr "stop";
                 distance := DistNull; mode := None |} in
  let s := run [Tick; Response 0 (Resolved true (Some data))] (initial blank ∅) in
  let refused := run [Tick; Response 1 (Resolved false None);
                      Tick; Response 2 (Resolved false None);
                      Tick; Response 3 (Resolved false None);
                      Tick; Response 4 (Resolved false None)] s in
  let interrupted := run [Tick; Response 1 Rejected; Tick; Response 2 Rejected;
                          Tick; Response 3 Rejected;
                          UpdateSpeed "150"; Response 4 (Resolved true None);
                          Tick; Response 5 Rejected] s in
  connectivity s = (0, Some (Lit "✅ Connected"), Some "status connected") /\
  (connectivity refused = (0, Some (Lit "✅ Connected"), Some "status connected") /\
   signalShown refused = signalShown s) /\
  (connectivity interrupted =
     (4, Some (Lit "⚠️ Disconnected"), Some "status disconnected") /\
   signalShown interrupted = Some (Lit "Signal: --")).
Proof. cbv zeta. repeat split; vm_compute; reflexivity. Qed.

(** C5, amended.  From the connected state with no failure counted,
    along every sequence of events that has no counted success and no
    connect to an address: the failure count is the number of counted
    failures in it; up to the third the indicator shows the
    connection and the signal strength is not blanked (it is as it
    was, or one a poll got as far as writing); from the fourth on the
    indicator shows the disconnection and the signal strength is
    blanked.  The counted failures are the [fetch] of a movement
    command or a poll that rejects, and the 2xx answer to a poll whose
    body does not parse, has no numeric battery, or has a signal
    strength or command with no conversion to a string.  Answers with
    a status outside 2xx, and all answers to mode and speed changes,
    are not counted and do not end the run; nor do the page's own
    steps in between. *)
Theorem disconnected_at_fourth_counted_failure (s : state) (es : list event) (n : nat) :
  failCount (vars s) = 0 ->
  textContent (doc s) !! statusEl = Some (Lit "✅ Connected") ->
  failuresIn s es = Some n ->
  failCount (vars (run es s)) = n /\
  textContent (doc (run es s)) !! statusEl =
    Some (Lit (if (n <=? 3)%nat then "✅ Connected" else "⚠️ Disconnected")) /\
  (if (n <=? 3)%nat
   then signalShown (run es s) = signalShown s \/
        exists v, signalShown (run es s) = Some (SignalDbm v)
   else className (doc (run es s)) !! statusEl = Some "status disconnected" /\
        signalShown (run es s) = Some (Lit "Signal: --")).
Proof.
  intros Hf Ht Hn.
  apply (failures_run (signalShown s) es s 0 n Hf); [exact Ht | now left | exact Hn].
Qed.

(** After a poll that went through: a poll that fails, a movement
    command that fails, a speed change that succeeds, a poll answered
    with a status outside 2xx, and a poll whose body does not parse
    make three counted failures; a poll whose signal strength has no
    conversion to a string makes the fourth. *)
Lemma disconnected_at_fourth_counted_failure_witness :
  let data := {| battery := JNum 7.4; rssi := JNum (-60); command := JStr "stop";
                 distance := DistNull; mode := None |} in
  let odd := {| battery := JNum 7.4; rssi := JObject None; command := JStr "stop";
                distance := DistNull; mode := None |} in
  let s := run [Tick; Response 0 (Resolved true (Some data))] (initial blank ∅) in
  let three := [Tick; Response 1 Rejected; Move "forward"; Response 2 Rejected;
                UpdateSpeed "150"; Response 3 (Resolved true None);
                Tick; Response 4 (Resolved false None);
                Tick; Response 5 (Resolved true None)] in
  let four := three ++ [Tick; Response 6 (Resolved true (Some odd))] in
  (failuresIn s three = Some 3 /\ failuresIn s four = Some 4) /\
  textContent (doc (run three s)) !! statusEl = Some (Lit "✅ Connected") /\
  textContent (doc (run four s)) !! statusEl = Some (Lit "⚠️ Disconnected") /\
  signalShown (run four s) = Some (Lit "Signal: --").
Proof.
  cbv zeta. split; [split; vm_compute; reflexivity |].
  match goal with
  | |- textContent (doc (run ?es3 ?s)) !! _ = _ /\
       textContent (doc (run ?es4 ?s)) !! _ = _ /\ _ =>
      destruct (disconnected_at_fourth_counted_failure s es3 3) as (_ & H3 & _);
        [vm_compute; reflexivity | vm_compute; reflexivity | vm_compute; reflexivity |];
      destruct (disconnected_at_fourth_counted_failure s es4 4) as (_ & H4 & _ & S4);
        [vm_compute; reflexivity | vm_compute; reflexivity | vm_compute; reflexivity |]
  end.
  split; [exact H3 |]. split; [exact H4 | exact S4].
Defined.

(** *** The mode and what shows it *)

Ltac lookups :=
  repeat (rewrite lookup_insert_eq || rewrite lookup_insert_ne by done).

(** What [modeDescriptions[m]] gives: the text of the mode for the
    two modes, what [Object.prototype] has for a name found there,
    [undefined] for any other. *)
Lemma modeDescriptions_get m :
  getProperty modeDescriptions m =
    if String.eqb m "manual"
    then Own "<strong>Manual Mode:</strong> Control the rover with buttons or keyboard"
    else if String.eqb m "autonomous"
    then Own "<strong>Autonomous Mode:</strong> Rover avoids obstacles automatically using ultrasonic sensor"
    else if existsb (String.eqb m) objectPrototype then Inherited m else Missing.
Proof.
  unfold getProperty, modeDescriptions. cbn [own inherited].
  destruct (String.eqb_spec m "manual") as [-> | Hm];
    [now rewrite lookup_insert_eq |].
  rewrite lookup_insert_ne by congruence.
  destruct (String.eqb_spec m "autonomous") as [-> | Ha];
    [now rewrite lookup_insert_eq |].
  rewrite lookup_insert_ne by congruence. now rewrite lookup_empty.
Qed.

Lemma switchMode_synced m s : synced (fst (switchMode m s)).
Proof.
  unfold synced. rewrite switchMode_currentMode.
  unfold modeShown, modeLayout, switchMode, updateModeUI.
  destruct (String.eqb m "manual"); proj; lookups; reflexivity.
Qed.

Lemma synced_frame s s' :
  modeShown s' = modeShown s -> currentMode (vars s') = currentMode (vars s) ->
  synced s -> synced s'.
Proof. unfold synced. now intros -> ->. Qed.

Lemma move_modeShown d s : modeShown (fst (move d s)) = modeShown s.
Proof.
  unfold move. destruct (negb _); [reflexivity |].
  unfold modeShown. proj. lookups. reflexivity.
Qed.



Lemma updateConnectionStatus_modeShown c s :
  modeShown (updateConnectionStatus c s) = modeShown s.
Proof.
  unfold updateConnectionStatus. destruct c; [| destruct (_ <? _)%nat].
  all: unfold modeShown; proj; lookups; reflexivity.
Qed.

Lemma showDistance_modeShown data s : modeShown (showDistance data s) = modeShown s.
Proof.
  unfold showDistance. destruct (distance data); try reflexivity.
  destruct (_ && _); unfold modeShown; proj; lookups; reflexivity.
Qed.

Lemma move_synced d s : synced s -> synced (fst (move d s)).
Proof. apply synced_frame; [apply move_modeShown | apply move_currentMode]. Qed.

Lemma updateConnectionStatus_synced c s :
  synced s -> synced (updateConnectionStatus c s).
Proof.
  apply synced_frame;
    [apply updateConnectionStatus_modeShown | apply updateConnectionStatus_currentMode].
Qed.

Lemma syncMode_synced data s : synced s -> synced (syncMode data s).
Proof.
  intros H. unfold syncMode. destruct (mode data) as [m |]; [| exact H].
  destruct (_ && _); [apply switchMode_synced | exact H].
Qed.

Lemma showStatus_synced data b s :
  synced s -> synced (catch (showStatus data b s) (updateConnectionStatus false)).
Proof.
  intros H. showStatus_cases.
  - apply updateConnectionStatus_synced, syncMode_synced.
    revert H. apply synced_frame.
    + rewrite showDistance_modeShown. unfold modeShown. proj. lookups. reflexivity.
    + now rewrite showDistance_currentMode.
  - apply updateConnectionStatus_synced.
    revert H. apply synced_frame.
    + destruct (stringifies (rssi data)); unfold modeShown; proj; lookups; reflexivity.
    + destruct (stringifies (rssi data)); reflexivity.
Qed.

Lemma resume_synced ks s : synced s -> synced (resume ks s).
Proof.
  revert s. induction ks as [| k ks IH]; intros s H; [exact H |].
  cbn [resume]. destruct k; cbn [run_segment].
  - pose proof (move_synced "stop" s H) as Hm.
    destruct (move "stop" s) as [s' [id |]]; cbn [fst] in Hm.
    + revert Hm. apply synced_frame; reflexivity.
    + now apply IH.
  - apply IH. revert H. apply synced_frame; [| reflexivity].
    unfold modeShown. proj. lookups. reflexivity.
Qed.

Lemma on_response_synced k o s : synced s -> synced (on_response k o s).
Proof.
  intros H. destruct k as [m | | |]; cbn [on_response].
  - destruct o; [exact H |].
    destruct (String.eqb m "manual"); [now apply move_synced | exact H].
  - destruct o as [| [|] ?]; try exact H; now apply updateConnectionStatus_synced.
  - exact H.
  - destruct o as [| [|] [data |]]; try exact H;
      try now apply updateConnectionStatus_synced.
    destruct (battery data); try now apply updateConnectionStatus_synced.
    now apply showStatus_synced.
Qed.

Lemma deliver_synced id o s : synced s -> synced (deliver id o s).
Proof.
  intros H. destruct (pending (env s) !! id) as [[k ks] |] eqn:Hp.
  - rewrite (deliver_pending _ _ _ _ _ Hp).
    apply resume_synced, on_response_synced.
    revert H. apply synced_frame; reflexivity.
  - unfold deliver. now rewrite Hp.
Qed.








(** *** Speed, toggle and address *)

(** X14.  A speed change is sent in every mode and its answer is
    never looked at: [updateSpeed(v)] shows [v], sends
    [/speed?val=v] to the active address, and whatever the answer --
    a response of any status or a failure -- the variables and the page
    stay as the call left them and nothing more is sent. *)
Theorem updateSpeed_fire_and_forget (v : string) (o : outcome) (s : state) :
  let s1 := fst (updateSpeed v s) in
  let s2 := deliver (length (requests (env s))) o s1 in
  (vars s1 = vars s /\
   textContent (doc s1) !! speedDisplay = Some (Lit v) /\
   requests (env s1) = requests (env s) ++ [GET (roverIP (vars s)) (Speed v)]) /\
  vars s2 = vars s /\ doc s2 = doc s1 /\
  requests (env s2) = requests (env s1) /\
  pending (env s2) !! length (requests (env s)) = None.
Proof.
  cbv zeta.
  rewrite (deliver_pending _ o _ InUpdateSpeed []) by (cbn; apply lookup_insert_eq).
  cbn [on_response resume]. unfold updateSpeed. proj.
  rewrite !lookup_insert_eq, lookup_delete_eq. repeat split.
Qed.

(** X15.  A switch to manual resets the toggle.  In manual mode with
    [d] as last command, once the mode request of a
    [switchMode('manual')] is answered by a response, the stop it sends
    makes ["stop"] the last command, so that the next [move(d)] is sent
    as [d] -- where without the switch it would have been sent as
    [stop]. *)
Theorem manual_switch_resets_toggle
    (s : state) (id : nat) (d : string) (ok : bool) (answer : option status_body) :
  pending (env s) !! id = Some (InSwitchMode "manual", []) ->
  currentMode (vars s) = "manual" ->
  lastCommand (vars s) = d -> d <> "stop" ->
  let s' := fst (move d (deliver id (Resolved ok answer) s)) in
  requests (env s') =
    requests (env s) ++ [GET (roverIP (vars s)) (Action "stop");
                         GET (roverIP (vars s)) (Action d)] /\
  lastCommand (vars s') = d /\
  requests (env (fst (move d s))) =
    requests (env s) ++ [GET (roverIP (vars s)) (Action "stop")].
Proof.
  intros Hp Hm Hl Hd. cbv zeta.
  assert (Hsd : String.eqb "stop" d = false).
  { apply String.eqb_neq. congruence. }
  apply String.eqb_neq in Hd.
  rewrite (deliver_mode_manual_resolved _ ok answer _ [] Hp Hm).
  cbn [resume]. rewrite move_stop_manual by exact Hm.
  rewrite !(move_manual d) by exact Hm. cbv zeta. proj.
  rewrite Hsd, Hl, String.eqb_refl, Hd. cbn [andb negb]. proj.
  rewrite <- app_assoc. repeat split.
Qed.

(** Forward, a switch to manual that is answered, forward again. *)
Lemma manual_switch_resets_toggle_witness :
  let s := run [Move "forward"; SwitchMode "manual"] (initial blank ∅) in
  map target (requests (env (fst (move "forward" (deliver 1 (Resolved true None) s))))) =
    [Action "forward"; Mode "manual"; Action "stop"; Action "forward"] /\
  map target (requests (env (fst (move "forward" s)))) =
    [Action "forward"; Mode "manual"; Action "stop"].
Proof.
  cbv zeta.
  match goal with
  | |- map target (requests (env (fst (move _ (deliver 1 _ ?s))))) = _ /\ _ =>
      destruct (manual_switch_resets_toggle s 1 "forward" true None) as (Hr & _ & Hr');
        [vm_compute; reflexivity | reflexivity | reflexivity | discriminate |]
  end.
  rewrite Hr, Hr'. split; vm_compute; reflexivity.
Defined.

Lemma trimStart_head s : startsWithSpace (trimStart s) = false.
Proof.
  induction s as [| c s IH]; [reflexivity |].
  cbn [trimStart]. destruct (is_space c) eqn:E; [exact IH | exact E].
Qed.

Lemma trimEnd_head s : startsWithSpace s = false -> startsWithSpace (trimEnd s) = false.
Proof.
  destruct s as [| c s]; [reflexivity |].
  cbn [startsWithSpace trimEnd]. intros H.
  destruct (trimEnd s); [rewrite H |]; exact H.
Qed.

Lemma trimEnd_last s : endsWithSpace (trimEnd s) = false.
Proof.
  induction s as [| c s IH]; [reflexivity |].
  cbn [trimEnd]. destruct (trimEnd s) as [| c' r].
  - destruct (is_space c) eqn:E; [reflexivity | exact E].
  - exact IH.
Qed.

(** X16.  What a connect persists is trimmed.  After
    [connectRover], either the store is as it was -- that is when the
    address trims to nothing -- or the persisted address is the active
    one, is not empty, and neither starts nor ends with white space. *)
Theorem connectRover_persists_trimmed (s : state) :
  localStorage (env (connectRover s)) = localStorage (env s) \/
  (localStorage (env (connectRover s)) !! "roverIP" = Some (roverIP (vars (connectRover s))) /\
   roverIP (vars (connectRover s)) <> "" /\
   startsWithSpace (roverIP (vars (connectRover s))) = false /\
   endsWithSpace (roverIP (vars (connectRover s))) = false).
Proof.
  destruct (truthy (trim (ipInput (doc s)))) eqn:Ht.
  - right. destruct (connectRover_address s Ht) as (Hr & Hl & _).
    rewrite Hl, Hr. split; [reflexivity |].
    split; [intros E; rewrite E in Ht; discriminate Ht |].
    unfold trim. split; [apply trimEnd_head, trimStart_head | apply trimEnd_last].
  - left. now apply connectRover_blank_store.
Qed.

(** X17.  The local mode does not wait for the rover.  After
    [switchMode(m)], whatever the answer to its mode request -- a
    response of any status or a failure -- the mode is [m], [m] is
    what the store holds, and the page shows [m] (buttons, label,
    panels, and as description what [modeDescriptions[m]] gives):
    nothing is rolled back when the rover does not acknowledge. *)
Theorem switchMode_not_rolled_back (m : string) (o : outcome) (s : state) :
  let s1 := fst (switchMode m s) in
  let s2 := deliver (length (requests (env s))) o s1 in
  currentMode (vars s2) = m /\
  localStorage (env s2) !! "controlMode" = Some m /\
  synced s2.
Proof.
  cbv zeta.
  pose proof (switchMode_synced m s) as Hy.
  pose proof (switchMode_currentMode m s) as Hm.
  pose proof (switchMode_pending m s) as Hp.
  pose proof (deliver_synced (length (requests (env s))) o _ Hy) as Hy2.
  assert (Hc : currentMode (vars (deliver (length (requests (env s))) o (fst (switchMode m s)))) = m).
  { rewrite (deliver_pending _ _ _ _ _ Hp). cbn [resume on_response].
    destruct o; [exact Hm |].
    destruct (String.eqb m "manual"); [| exact Hm].
    rewrite move_currentMode. exact Hm. }
  split; [exact Hc |]. split; [| exact Hy2].
  unfold synced, modeShown, modeLayout in Hy2. rewrite Hc in Hy2.
  now injection Hy2.
Qed.

(** X18.  The start-up restores the address before the mode: when
    the store holds a non-empty address and the autonomous mode, the
    one request the start-up sends, [/mode?mode=autonomous], goes to
    the restored address, not to the default one; and the start-up
    sends no poll. *)
Theorem startup_request_to_saved_address (s : state) (a : string) :
  localStorage (env s) !! "roverIP" = Some a -> truthy a = true ->
  localStorage (env s) !! "controlMode" = Some "autonomous" ->
  requests (env (onLoad s)) = requests (env s) ++ [GET a (Mode "autonomous")].
Proof.
  intros Ha Ht Hm. rewrite onLoad_split, loadAddress_env, Hm.
  cbn [truthy andb String.eqb Ascii.eqb Bool.eqb].
  rewrite switchMode_requests, loadAddress_env.
  unfold loadAddress. rewrite Ha, Ht. reflexivity.
Qed.

(** A store left by a connect to ["10.0.0.5"] and a switch to the
    autonomous mode. *)
Lemma startup_request_to_saved_address_witness :
  let store := localStorage (env (run [Typed "10.0.0.5"; Connect; SwitchMode "autonomous"]
                                      (initial blank ∅))) in
  requests (env (onLoad (initial blank store))) = [GET "10.0.0.5" (Mode "autonomous")].
Proof.
  cbv zeta.
  rewrite (startup_request_to_saved_address _ "10.0.0.5"); try reflexivity;
    vm_compute; reflexivity.
Defined.
